(** * UMA Resource Server: a shallow embedding of [ResourceServer] and
      [SignedFetcher.ts] and the properties of its request handlers.

    The TypeScript sources are embedded as follows.
    - JavaScript values that reach the handlers untyped ([any]): the AS
      metadata and the JSON bodies of AS responses are values of [JsVal];
      truthiness, property access and template-literal conversion follow
      the language.
    - Strings are sequences of code units below 256, written as Rocq
      strings.
    - [Map] objects are finite maps ([gmap]); objects mutated through
      [this] live in a [World] that every asynchronous function reads and
      updates.
    - An [async] function is a value of [Async]: synchronous segments of
      reads and updates of the world, separated by [Await] points at which
      other tasks may run, ending in a resolved or rejected promise.
    - What the platform supplies (key generation, WebCrypto signing, the
      injected network fetcher) is a section variable.
    Console output is not part of the model. *)

From Stdlib Require Import ZArith Ascii String.
From stdpp Require Import base option list strings pretty gmap.

Set Warnings "-register-all".

Local Open Scope string_scope.
Local Open Scope Z_scope.

(** ** JavaScript values and the string primitives the handlers use *)

Module JS.

(** An error object: its [name] (the class) and its [message]. *)
Record JsError := mkError { err_name : string; err_message : string }.

Definition Error (m : string) : JsError := mkError "Error" m.
Definition TypeError (m : string) : JsError := mkError "TypeError" m.
Definition SyntaxError (m : string) : JsError := mkError "SyntaxError" m.

(** [Error.prototype.toString], which a template literal applies to [e]. *)
Definition error_toString (e : JsError) : string :=
  if decide (err_message e = "") then err_name e
  else if decide (err_name e = "") then err_message e
  else err_name e +:+ ": " +:+ err_message e.

(** A settled promise, also used for a call that returns or throws. *)
Inductive Settled (A : Type) : Type :=
| Fulfilled (a : A)
| Rejected (e : JsError).
Arguments Fulfilled {A} a.
Arguments Rejected {A} e.

(** The error of a rejection, if it is one. *)
Definition rejection {A : Type} (r : Settled A) : option JsError :=
  match r with
  | Fulfilled _ => None
  | Rejected e => Some e
  end.

(** An integer that a JavaScript number holds exactly and prints in full:
    its absolute value is below 2^53. *)
Record SafeInteger := {
  int_value : Z;
  int_safe : (Z.abs int_value <? 2 ^ 53) = true
}.

(** Values produced by [JSON.parse] (and [undefined], which a missing
    property evaluates to). Numbers are the safe integers. An object lists
    its own properties in insertion order, each name once. *)
Inductive JsVal : Type :=
| JUndefined
| JNull
| JBool (b : bool)
| JNum (n : SafeInteger)
| JStr (s : string)
| JArr (xs : list JsVal)
| JObj (fields : list (string * JsVal)).

(** ToBoolean. *)
Definition truthy (v : JsVal) : bool :=
  match v with
  | JUndefined | JNull => false
  | JBool b => b
  | JNum n => negb (int_value n =? 0)
  | JStr s => negb (bool_decide (s = ""))
  | JArr _ | JObj _ => true
  end.

Fixpoint assoc (k : string) (fields : list (string * JsVal)) : option JsVal :=
  match fields with
  | [] => None
  | (k', v) :: rest => if decide (k = k') then Some v else assoc k rest
  end.

(** [v.k] for the property names read by the server ([active], [ticket],
    [_id] and the endpoint names): reading from [undefined] or [null]
    throws, an object answers with its property, every other value has no
    such property. *)
Definition get (v : JsVal) (k : string) : Settled JsVal :=
  match v with
  | JUndefined =>
      Rejected (TypeError ("Cannot read properties of undefined (reading '" +:+ k +:+ "')"))
  | JNull =>
      Rejected (TypeError ("Cannot read properties of null (reading '" +:+ k +:+ "')"))
  | JObj fields => Fulfilled (default JUndefined (assoc k fields))
  | _ => Fulfilled JUndefined
  end.

Definition join (sep : string) (parts : list string) : string :=
  match parts with
  | [] => ""
  | p :: ps => fold_left (fun acc q => acc +:+ sep +:+ q) ps p
  end.

(** ToString, as applied by a template literal. *)
Fixpoint toString (v : JsVal) : string :=
  match v with
  | JUndefined => "undefined"
  | JNull => "null"
  | JBool true => "true"
  | JBool false => "false"
  | JNum n => pretty (int_value n)
  | JStr s => s
  | JArr xs =>
      join "," (map (fun x => match x with
                              | JUndefined | JNull => ""
                              | _ => toString x
                              end) xs)
  | JObj _ => "[object Object]"
  end.

(** White space removed by [String.prototype.trim], among code units
    below 256. *)
Definition is_white_space (c : ascii) : bool :=
  let n := nat_of_ascii c in
  ((9 <=? n) && (n <=? 13) || (n =? 32) || (n =? 160))%nat.

Fixpoint trimStart (s : string) : string :=
  match s with
  | EmptyString => EmptyString
  | String c s' => if is_white_space c then trimStart s' else s
  end.

Fixpoint trimEnd (s : string) : string :=
  match s with
  | EmptyString => EmptyString
  | String c s' =>
      match trimEnd s' with
      | EmptyString => if is_white_space c then EmptyString else String c EmptyString
      | r => String c r
      end
  end.

Definition trim (s : string) : string := trimEnd (trimStart s).

Fixpoint startsWith (p s : string) : bool :=
  match p, s with
  | EmptyString, _ => true
  | String a p', String b s' => if decide (a = b) then startsWith p' s' else false
  | String _ _, EmptyString => false
  end.

(** [s.includes(sep)]. *)
Fixpoint includes (s sep : string) : bool :=
  startsWith sep s ||
  match s with
  | EmptyString => false
  | String _ s' => includes s' sep
  end.

(** [s.split(sep)] for a non-empty separator: [acc] is the piece being
    collected and [skip] the number of code units of a separator
    occurrence still to pass over. *)
Fixpoint split_from (sep : string) (skip : nat) (acc : string) (s : string)
  : list string :=
  match s with
  | EmptyString => [acc]
  | String c s' =>
      match skip with
      | S n => split_from sep n acc s'
      | O =>
          if startsWith sep s
          then acc :: split_from sep (String.length sep - 1) "" s'
          else split_from sep O (acc +:+ String c "") s'
      end
  end.

Definition split (s sep : string) : list string := split_from sep O "" s.

Definition toLowerCase_unit (c : ascii) : ascii :=
  let n := nat_of_ascii c in
  if ((65 <=? n) && (n <=? 90))%nat then ascii_of_nat (n + 32) else c.

Fixpoint toLowerCase (s : string) : string :=
  match s with
  | EmptyString => EmptyString
  | String c s' => String (toLowerCase_unit c) (toLowerCase s')
  end.

(** *** [JSON.stringify] *)

Definition hex_digit (n : nat) : ascii :=
  ascii_of_nat (if (n <? 10)%nat then 48 + n else 87 + n).

Definition dquote : string := String (ascii_of_nat 34) EmptyString.

Definition quote_unit (c : ascii) : string :=
  let n := nat_of_ascii c in
  if (n =? 34)%nat then "\" +:+ dquote
  else if (n =? 92)%nat then "\\"
  else if (n =? 8)%nat then "\b"
  else if (n =? 9)%nat then "\t"
  else if (n =? 10)%nat then "\n"
  else if (n =? 12)%nat then "\f"
  else if (n =? 13)%nat then "\r"
  else if (n <? 32)%nat
       then "\u00" +:+ String (hex_digit (n / 16)) (String (hex_digit (n mod 16)) "")
  else String c "".

Fixpoint quote_units (s : string) : string :=
  match s with
  | EmptyString => EmptyString
  | String c s' => quote_unit c +:+ quote_units s'
  end.

Definition quote (s : string) : string := dquote +:+ quote_units s +:+ dquote.

(** [None] stands for the [undefined] that [JSON.stringify(undefined)]
    returns; an array renders such an element as [null], an object leaves
    the property out. *)
Fixpoint stringify (v : JsVal) : option string :=
  match v with
  | JUndefined => None
  | JNull => Some "null"
  | JBool true => Some "true"
  | JBool false => Some "false"
  | JNum n => Some (pretty (int_value n))
  | JStr s => Some (quote s)
  | JArr xs =>
      Some ("[" +:+ join "," (map (fun x => default "null" (stringify x)) xs) +:+ "]")
  | JObj fields =>
      Some ("{" +:+
            join "," ((fix members (fs : list (string * JsVal)) : list string :=
                         match fs with
                         | [] => []
                         | (k, x) :: rest =>
                             match stringify x with
                             | Some s => (quote k +:+ ":" +:+ s) :: members rest
                             | None => members rest
                             end
                         end) fields) +:+ "}")
  end.

End JS.

Import JS.

(** ** Data model *)

(** [AsymmetricSigningAlgorithm] and the value each name has at run time. *)
Inductive AsymmetricSigningAlgorithm : Type :=
| PS256 | PS384 | PS512
| ES256 | ES256K | ES384 | ES512
| EdDSA
| RS256 | RS384 | RS512.

Definition alg_name (a : AsymmetricSigningAlgorithm) : string :=
  match a with
  | PS256 => "PS256" | PS384 => "PS384" | PS512 => "PS512"
  | ES256 => "ES256" | ES256K => "ES256K" | ES384 => "ES384" | ES512 => "ES512"
  | EdDSA => "EdDSA"
  | RS256 => "RS256" | RS384 => "RS384" | RS512 => "RS512"
  end.

(** An entry of [algMap]: the WebCrypto algorithm parameters. *)
Record AlgParams := {
  ap_name : string;
  ap_namedCurve : option string;
  ap_hash : string
}.

(** [algMap[alg]], indexed at run time by whatever string the key carries;
    [None] is the [undefined] of a missing entry. *)
Definition algMap (alg : option string) : option AlgParams :=
  match alg with
  | None => None
  | Some a =>
      if decide (a = "ES256") then Some {| ap_name := "ECDSA"; ap_namedCurve := Some "P-256"; ap_hash := "SHA-256" |}
      else if decide (a = "ES384") then Some {| ap_name := "ECDSA"; ap_namedCurve := Some "P-384"; ap_hash := "SHA-384" |}
      else if decide (a = "ES512") then Some {| ap_name := "ECDSA"; ap_namedCurve := Some "P-512"; ap_hash := "SHA-512" |}
      else if decide (a = "HS256") then Some {| ap_name := "HMAC"; ap_namedCurve := None; ap_hash := "SHA-256" |}
      else if decide (a = "HS384") then Some {| ap_name := "HMAC"; ap_namedCurve := None; ap_hash := "SHA-384" |}
      else if decide (a = "HS512") then Some {| ap_name := "HMAC"; ap_namedCurve := None; ap_hash := "SHA-512" |}
      else if decide (a = "PS256") then Some {| ap_name := "RSASSA-PSS"; ap_namedCurve := None; ap_hash := "SHA-256" |}
      else if decide (a = "PS384") then Some {| ap_name := "RSASSA-PSS"; ap_namedCurve := None; ap_hash := "SHA-384" |}
      else if decide (a = "PS512") then Some {| ap_name := "RSASSA-PSS"; ap_namedCurve := None; ap_hash := "SHA-512" |}
      else if decide (a = "RS256") then Some {| ap_name := "RSASSA-PKCS1-v1_5"; ap_namedCurve := None; ap_hash := "SHA-256" |}
      else if decide (a = "RS384") then Some {| ap_name := "RSASSA-PKCS1-v1_5"; ap_namedCurve := None; ap_hash := "SHA-384" |}
      else if decide (a = "RS512") then Some {| ap_name := "RSASSA-PKCS1-v1_5"; ap_namedCurve := None; ap_hash := "SHA-512" |}
      else None
  end.

(** A JWK is a plain object with string members ([kty], [crv], [x], [d],
    [alg], [kid], ...); a JWKS holds a list of them. *)
Abbreviation JWK := (gmap string string).

Record JWKS := { keys : list JWK }.

(** *** Header lists

    What [new Headers(...)] does with a header: white space (tab, line
    feed, carriage return, space) around the value is removed; the name
    must be a token and the value must be free of NUL, line feed and
    carriage return, or the constructor throws. *)

Definition is_http_white_space (c : ascii) : bool :=
  let n := nat_of_ascii c in
  ((n =? 9) || (n =? 10) || (n =? 13) || (n =? 32))%nat.

Fixpoint strip_start (s : string) : string :=
  match s with
  | EmptyString => EmptyString
  | String c s' => if is_http_white_space c then strip_start s' else s
  end.

Fixpoint strip_end (s : string) : string :=
  match s with
  | EmptyString => EmptyString
  | String c s' =>
      match strip_end s' with
      | EmptyString => if is_http_white_space c then EmptyString else String c EmptyString
      | r => String c r
      end
  end.

Definition normalize_value (value : string) : string := strip_end (strip_start value).

Fixpoint every_unit (p : ascii -> bool) (s : string) : bool :=
  match s with
  | EmptyString => true
  | String c s' => p c && every_unit p s'
  end.

Definition is_token_unit (c : ascii) : bool :=
  let n := nat_of_ascii c in
  ((65 <=? n) && (n <=? 90) || (97 <=? n) && (n <=? 122) || (48 <=? n) && (n <=? 57) ||
   (n =? 33) || (35 <=? n) && (n <=? 39) || (n =? 42) || (n =? 43) || (n =? 45) ||
   (n =? 46) || (94 <=? n) && (n <=? 96) || (n =? 124) || (n =? 126))%nat.

Definition is_value_unit (c : ascii) : bool :=
  let n := nat_of_ascii c in
  negb ((n =? 0) || (n =? 10) || (n =? 13))%nat.

(** A header that [new Headers(...)] accepts. *)
Definition accepted_header (h : string * string) : bool :=
  negb (bool_decide (h.1 = "")) && every_unit is_token_unit h.1 &&
  every_unit is_value_unit (normalize_value h.2).

(** The [init] argument of a fetch: the options the server passes. Its
    headers are a list that [new Headers(...)] accepts. *)
Record RequestInit := {
  init_method : option string;
  init_headers : list (string * string);
  init_headers_accepted : forallb accepted_header init_headers = true;
  init_body : option string
}.

(** The parameters that [httpbis.signMessage] writes into the
    [Signature-Input] header (the creation time apart). *)
Record SignatureInput := {
  keyid : option string;
  sig_alg : option string
}.

(** The message handed to the injected fetcher: the request built by
    [SignedFetcher.fetch] together with the [Signature] and
    [Signature-Input] headers added by signing. *)
Record SignedRequest := {
  sr_url : JsVal;
  sr_method : string;
  sr_headers : gmap string string;
  sr_body : option string;
  sr_signature_input : SignatureInput;
  sr_signature : string
}.

(** A fetch [Response], as far as the server looks at it. *)
Record HttpResponse := {
  status : Z;
  json : Settled JsVal;
  text : string
}.

(** What a handler has written to an Express response object. *)
Inductive Body : Type :=
| Text (s : string)
| Json (jwks : JWKS).

Record Res := {
  statusCode : Z;
  res_headers : list (string * string);
  sent : option Body
}.

(** A response object as Express hands it to a handler. *)
Definition new_res : Res :=
  {| statusCode := 200; res_headers := []; sent := None |}.

(** The mutable fields of a [JwkGenerator] object. *)
Record GenState := {
  privateJwk : option JWK;
  publicJwk : option JWK
}.

Definition new_gen : GenState := {| privateJwk := None; publicJwk := None |}.

(** Everything the asynchronous functions share:
    - [resources]: the [resources] map of the server;
    - [storage]: the [Map] given to the key generators as backing store;
    - [generators]: the mutable fields of each [JwkGenerator] object, by
      object identity (an identity not in the map is an object that was
      just constructed);
    - [generated]: how many times [generateKeyPair] has been called;
    - [outbox]: the calls made to the injected fetcher, oldest first;
    - [responses]: the Express response objects, by request. *)
Record World := {
  resources : gmap string string;
  storage : gmap string JWKS;
  generators : gmap nat GenState;
  generated : nat;
  outbox : list (JsVal * SignedRequest);
  responses : gmap nat Res
}.

Definition set_resources (f : gmap string string -> gmap string string) (w : World) : World :=
  {| resources := f (resources w); storage := storage w; generators := generators w;
     generated := generated w; outbox := outbox w; responses := responses w |}.

Definition set_storage (f : gmap string JWKS -> gmap string JWKS) (w : World) : World :=
  {| resources := resources w; storage := f (storage w); generators := generators w;
     generated := generated w; outbox := outbox w; responses := responses w |}.

Definition set_generators (f : gmap nat GenState -> gmap nat GenState) (w : World) : World :=
  {| resources := resources w; storage := storage w; generators := f (generators w);
     generated := generated w; outbox := outbox w; responses := responses w |}.

Definition set_generated (f : nat -> nat) (w : World) : World :=
  {| resources := resources w; storage := storage w; generators := generators w;
     generated := f (generated w); outbox := outbox w; responses := responses w |}.

Definition set_outbox (f : list (JsVal * SignedRequest) -> list (JsVal * SignedRequest))
  (w : World) : World :=
  {| resources := resources w; storage := storage w; generators := generators w;
     generated := generated w; outbox := f (outbox w); responses := responses w |}.

Definition set_responses (f : gmap nat Res -> gmap nat Res) (w : World) : World :=
  {| resources := resources w; storage := storage w; generators := generators w;
     generated := generated w; outbox := outbox w; responses := f (responses w) |}.

Definition empty_world : World :=
  {| resources := ∅; storage := ∅; generators := ∅; generated := 0;
     outbox := []; responses := ∅ |}.

(** ** Asynchronous functions *)

(** The body of an [async] function. [Read] and [Update] are its
    synchronous accesses to shared objects, [Await] is a point at which it
    is suspended and other tasks may run, [Spawn] calls another
    asynchronous function without awaiting its promise. *)
Inductive Async (A : Type) : Type :=
| Resolve (a : A)
| Reject (e : JsError)
| Read (k : World -> Async A)
| Update (f : World -> World) (k : Async A)
| Await (k : Async A)
| Spawn (child : Async unit) (k : Async A).
Arguments Resolve {A} a.
Arguments Reject {A} e.
Arguments Read {A} k.
Arguments Update {A} f k.
Arguments Await {A} k.
Arguments Spawn {A} child k.

Fixpoint bind {A B : Type} (m : Async A) (f : A -> Async B) : Async B :=
  match m with
  | Resolve a => f a
  | Reject e => Reject e
  | Read k => Read (fun w => bind (k w) f)
  | Update g k => Update g (bind k f)
  | Await k => Await (bind k f)
  | Spawn c k => Spawn c (bind k f)
  end.

(** [try { m } catch (e) { h e }]; a task spawned inside [m] is outside the
    block. *)
Fixpoint try_catch {A : Type} (m : Async A) (h : JsError -> Async A) : Async A :=
  match m with
  | Resolve a => Resolve a
  | Reject e => h e
  | Read k => Read (fun w => try_catch (k w) h)
  | Update g k => Update g (try_catch k h)
  | Await k => Await (try_catch k h)
  | Spawn c k => Spawn c (try_catch k h)
  end.

Declare Scope async_scope.
Delimit Scope async_scope with async.
Notation "x <- m ;; k" := (bind m (fun x => k))
  (at level 100, m at next level, right associativity) : async_scope.
Notation "m ;;; k" := (bind m (fun _ => k))
  (at level 100, right associativity) : async_scope.
Local Open Scope async_scope.

(** [await p] for the promise of a call [p]: the caller resumes, one
    suspension later, with the outcome of the callee. *)
Definition await {A : Type} (p : Async A) : Async A :=
  x <- p ;; Await (Resolve x).

(** A value or exception of a synchronous expression, and [await] of a
    promise that is already settled. *)
Definition settle {A : Type} (r : Settled A) : Async A :=
  match r with
  | Fulfilled a => Resolve a
  | Rejected e => Reject e
  end.

Definition await_settled {A : Type} (r : Settled A) : Async A :=
  Await (settle r).

(** *** Running tasks *)

(** One turn of a task: it runs up to its next suspension. The result is
    the rest of the task, the world it leaves, and the rest of every task
    it spawned on the way (each already run up to its own first
    suspension). *)
Fixpoint advance {A : Type} (p : Async A) (w : World)
  : Async A * World * list (Async unit) :=
  match p with
  | Resolve a => (Resolve a, w, [])
  | Reject e => (Reject e, w, [])
  | Read k => advance (k w) w
  | Update f k => advance k (f w)
  | Await k => (k, w, [])
  | Spawn c k =>
      let '(c', w1, bg1) := advance c w in
      let '(k', w2, bg2) := advance k w1 in
      (k', w2, (bg1 ++ c' :: bg2)%list)
  end.

(** A task run to the end with no other task taking a turn in between.
    The tasks it spawned are returned, not run. *)
Fixpoint run {A : Type} (p : Async A) (w : World)
  : Settled A * World * list (Async unit) :=
  match p with
  | Resolve a => (Fulfilled a, w, [])
  | Reject e => (Rejected e, w, [])
  | Read k => run (k w) w
  | Update f k => run k (f w)
  | Await k => run k w
  | Spawn c k =>
      let '(c', w1, bg1) := advance c w in
      let '(r, w2, bg2) := run k w1 in
      (r, w2, (bg1 ++ c' :: bg2)%list)
  end.

(** The tasks left behind, run one after the other, each to its end and
    together with the tasks it leaves behind in turn; [fuel] bounds the
    number of tasks run. *)
Fixpoint drain (fuel : nat) (tasks : list (Async unit)) (w : World) : World :=
  match fuel, tasks with
  | S n, t :: rest =>
      let '(_, w1, bg) := run t w in drain n (rest ++ bg)%list w1
  | _, _ => w
  end.

(** Tasks of one kind taking turns in the order [turns] names them. *)
Fixpoint interleave {A : Type} (turns : list nat) (tasks : list (Async A)) (w : World)
  : list (Async A) * World :=
  match turns with
  | [] => (tasks, w)
  | i :: rest =>
      match tasks !! i with
      | None => interleave rest tasks w
      | Some t =>
          let '(t', w', _) := advance t w in
          interleave rest (<[i := t']> tasks) w'
      end
  end.

(** ** The program *)

(** The immutable part of a [JwkGenerator]: its identity as an object,
    [alg] and the storage key [key]. Its [storage] is the backing store of
    the world. *)
Record JwkGenerator := {
  gen_id : nat;
  alg : AsymmetricSigningAlgorithm;
  key : string
}.

Record SignedFetcher := {
  sf_baseUrl : string;
  sf_keyGen : JwkGenerator
}.

(** [authServerUmaConfig] is the promise created once by the constructor;
    the record holds what it settles to. *)
Record ResourceServer := {
  port : Z;
  baseUrl : string;
  authServer : string;
  fetcher : SignedFetcher;
  keyGen : JwkGenerator;
  authServerUmaConfig : Settled JsVal
}.

(** An Express request, as far as the handlers look at it: [req.url],
    [req.header('Authorization')] and the text body ([None] where the
    source reads [undefined]). *)
Record Req := {
  req_url : string;
  req_authorization : option string;
  req_body : option string
}.

(** Truthiness of a string that may be [undefined]. *)
Definition truthy_string (s : option string) : bool :=
  match s with
  | Some s => negb (bool_decide (s = ""))
  | None => false
  end.

Definition gen_state (w : World) (id : nat) : GenState :=
  default new_gen (generators w !! id).

Definition set_privateJwk (G : JwkGenerator) (k : option JWK) (w : World) : World :=
  set_generators
    (fun m => <[gen_id G := {| privateJwk := k;
                               publicJwk := publicJwk (gen_state w (gen_id G)) |}]> m) w.

Definition set_publicJwk (G : JwkGenerator) (k : option JWK) (w : World) : World :=
  set_generators
    (fun m => <[gen_id G := {| privateJwk := privateJwk (gen_state w (gen_id G));
                               publicJwk := k |}]> m) w.

Definition res_of (w : World) (rid : nat) : Res := default new_res (responses w !! rid).

Definition res_setHeader (rid : nat) (name value : string) (w : World) : World :=
  set_responses
    (fun m => <[rid := {| statusCode := statusCode (res_of w rid);
                          res_headers := (res_headers (res_of w rid) ++ [(name, value)])%list;
                          sent := sent (res_of w rid) |}]> m) w.

Definition res_set_statusCode (rid : nat) (code : Z) (w : World) : World :=
  set_responses
    (fun m => <[rid := {| statusCode := code;
                          res_headers := res_headers (res_of w rid);
                          sent := sent (res_of w rid) |}]> m) w.

Definition res_send (rid : nat) (b : Body) (w : World) : World :=
  set_responses
    (fun m => <[rid := {| statusCode := statusCode (res_of w rid);
                          res_headers := res_headers (res_of w rid);
                          sent := Some b |}]> m) w.

(** The header object that [new Headers(init.headers).forEach] fills in by
    [request.headers[key] = value]. [Headers] lower-cases names and strips
    white space around values. Iteration joins the values of a repeated
    name with a comma and a space, except for [set-cookie], whose values
    it visits one by one, so that the assignment keeps the last. An
    assignment to [__proto__] of a string creates no property. *)
Definition Headers_entries (hs : list (string * string)) : gmap string string :=
  fold_left
    (fun (m : gmap string string) (h : string * string) =>
       let name := toLowerCase (fst h) in
       let value := normalize_value (snd h) in
       if decide (name = "__proto__") then m
       else
         match m !! name with
         | Some old =>
             if decide (name = "set-cookie") then <[name := value]> m
             else <[name := old +:+ ", " +:+ value]> m
         | None => <[name := value]> m
         end)
    hs ∅.

Definition read_scope : string := "urn:example:css:modes:read".

Definition not_found_body : string := "Resource not found in Resource Server Storage".

Definition already_exists_body : string :=
  "Resource already exists in Demo UMA Resource Server!".

(** [new ResourceServer(authServer, port)] with the generator object it
    creates and what the metadata request settles to. The [keyMap] it
    allocates is the empty backing store of [empty_world]. The port, when
    given, is a safe integer, which the template literal prints in full. *)
Definition new_ResourceServer (authServer : string) (port : option SafeInteger)
  (generator : nat) (config : Settled JsVal) : ResourceServer :=
  let port := match port with
              | Some p => if int_value p =? 0 then 3565 else int_value p
              | None => 3565
              end in
  let baseUrl := "http://localhost:" +:+ pretty port in
  let keyGen := {| gen_id := generator; alg := ES256; key := "jwks" |} in
  {| port := port;
     baseUrl := baseUrl;
     authServer := authServer;
     fetcher := {| sf_baseUrl := baseUrl; sf_keyGen := keyGen |};
     keyGen := keyGen;
     authServerUmaConfig := config |}.


(** ** A concrete environment

    A server on the default port that talks to an AS at
    [http://localhost:4000/uma], with stand-ins for the platform: the
    [n]-th generated key carries [n] in its private member, signing
    succeeds for every algorithm of [algMap], and the network is a fixed
    answer. The lemmas that run the handlers on concrete inputs use it. *)

Module Demo.

Definition generateKeyPair (a : AsymmetricSigningAlgorithm) (n : nat) : JWK :=
  {[ "kty" := "EC"; "crv" := "P-256"; "d" := "private-" +:+ pretty n ]}.

Definition exportPublicJwk (k : option JWK) : Settled JWK :=
  match k with
  | Some k => Fulfilled (delete "alg" (delete "d" k))
  | None => Rejected (TypeError "JWK must be an object")
  end.

Definition subtle_sign (params : option AlgParams) (k : JWK) : Settled string :=
  match params with
  | Some _ => Fulfilled "signature"
  | None => Rejected (TypeError "Unrecognized algorithm name")
  end.

Definition answer (a : Settled HttpResponse)
  : list (JsVal * SignedRequest) -> JsVal -> SignedRequest -> Settled HttpResponse :=
  fun _ _ _ => a.

Definition json_response (code : Z) (body : JsVal) : Settled HttpResponse :=
  Fulfilled {| status := code; json := Fulfilled body; text := "" |}.

Definition html_response : Settled HttpResponse :=
  Fulfilled {| status := 502;
               json := Rejected (SyntaxError "Unexpected token '<'");
               text := "<html>Bad Gateway</html>" |}.

Definition config : JsVal :=
  JObj [("permission_endpoint", JStr "http://localhost:4000/uma/ticket");
        ("introspection_endpoint", JStr "http://localhost:4000/uma/introspect");
        ("resource_registration_endpoint", JStr "http://localhost:4000/uma/resources")].

Definition server : ResourceServer :=
  new_ResourceServer "http://localhost:4000/uma" None 0 (Fulfilled config).

Definition post_r1 (body : option string) : Req :=
  {| req_url := "/r1"; req_authorization := None; req_body := body |}.

Definition get_r1 (authorization : option string) : Req :=
  {| req_url := "/r1"; req_authorization := authorization; req_body := None |}.

(** The store after [hello] was posted to [/r1]. *)
Definition world_with_r1 : World :=
  set_resources (fun m => <["http://localhost:3565/r1" := "hello"]> m) empty_world.

(** A store that holds an empty key set under [jwks]. *)
Definition world_with_empty_key_set : World :=
  set_storage (fun m => <["jwks" := {| keys := [] |}]> m) empty_world.

(** A server whose metadata request failed. *)
Definition server_without_metadata : ResourceServer :=
  new_ResourceServer "http://localhost:4000/uma" None 0 (Rejected (TypeError "fetch failed")).

End Demo.

Section Program.

(** The private key, exported as a JWK, that the [n]-th call of jose's
    [generateKeyPair] produces (calls are counted from 0). *)
Variable generateKeyPair : AsymmetricSigningAlgorithm -> nat -> JWK.

(** jose's [importJWK], node's [createPublicKey] and [exportJWK] in a
    row: the public JWK of a private one, or the exception one of them
    throws. *)
Variable exportPublicJwk : option JWK -> Settled JWK.

(** [crypto.subtle.importKey] followed by [crypto.subtle.sign], for the
    parameters and the key of the [sign] closure of a signing key. *)
Variable subtle_sign : option AlgParams -> JWK -> Settled string.

(** The injected [Fetcher]: what [fetcher.fetch(url, signed)] settles to,
    given the calls made before it. *)
Variable network :
  list (JsVal * SignedRequest) -> JsVal -> SignedRequest -> Settled HttpResponse.

(** *** [JwkGenerator] *)

Definition getPrivateKey (G : JwkGenerator) : Async (option JWK) :=
  Read (fun w =>
    match privateJwk (gen_state w (gen_id G)) with
    | Some k => Resolve (Some k)
    | None =>
        let jwks := storage w !! key G in
        Await
          match jwks with
          | Some jwks =>
              Update (set_privateJwk G (keys jwks !! 0%nat))
                (Resolve (keys jwks !! 0%nat))
          | None =>
              Read (fun w1 =>
                let n := generated w1 in
                Update (set_generated S)
                  (Await (Await
                    (let privateJwk := <["alg" := alg_name (alg G)]> (generateKeyPair (alg G) n) in
                     Update (set_storage (fun m => <[key G := {| keys := [privateJwk] |}]> m))
                       (Await
                          (Update (set_privateJwk G (Some privateJwk))
                             (Resolve (Some privateJwk))))))))
          end
    end).

Definition getPublicKey (G : JwkGenerator) : Async JWK :=
  Read (fun w =>
    match publicJwk (gen_state w (gen_id G)) with
    | Some k => Resolve k
    | None =>
        privateJwk <- await (getPrivateKey G) ;;
        exported <- await_settled (exportPublicJwk privateJwk) ;;
        Await
          match privateJwk with
          | None =>
              Reject (TypeError "Cannot read properties of undefined (reading 'alg')")
          | Some priv =>
              let publicJwk :=
                match priv !! "alg" with
                | Some a => <["alg" := a]> exported
                | None => delete "alg" exported
                end in
              Update (set_publicJwk G (Some publicJwk)) (Resolve publicJwk)
          end
    end).

(** *** [SignedFetcher] *)

(** The [SigningKey] built by [fetch]: [id], [alg] and what calling its
    [sign] settles to. *)
Record SigningKey := {
  sk_id : option string;
  sk_alg : option string;
  sk_sign : Settled string
}.

(** The request object built by [fetch] before signing. *)
Record Request := {
  rq_url : JsVal;
  rq_method : string;
  rq_headers : gmap string string;
  rq_body : option string
}.

(** [httpbis.signMessage({ key, paramValues: { keyid } }, request)] of the
    http-message-signatures package, whose code is outside the
    repository. It is represented by what the package documents for this
    configuration: the [keyid] parameter is the configured one and, in
    its absence, the id of the key; the [alg] parameter is that of the
    key; the signature is the result of the key's [sign]; the message
    returned is the request with the two signature headers. *)
Definition signMessage (k : SigningKey) (paramValues_keyid : option string)
  (request : Request) : Async SignedRequest :=
  signature <- await_settled (sk_sign k) ;;
  Resolve {| sr_url := rq_url request;
             sr_method := rq_method request;
             sr_headers := rq_headers request;
             sr_body := rq_body request;
             sr_signature_input :=
               {| keyid := match paramValues_keyid with
                           | Some id => Some id
                           | None => sk_id k
                           end;
                  sig_alg := sk_alg k |};
             sr_signature := signature |}.

(** [this.fetcher.fetch(url, signed)]. *)
Definition fetcher_fetch (url : JsVal) (signed : SignedRequest) : Async HttpResponse :=
  Read (fun w =>
    Update (set_outbox (fun o => (o ++ [(url, signed)])%list))
      (Await (settle (network (outbox w) url signed)))).

(** [input] is always a plain value here (an endpoint read from the AS
    metadata), never a [URL] or a [Request] object. *)
Definition SignedFetcher_fetch (F : SignedFetcher) (input : JsVal)
  (init : option RequestInit) : Async HttpResponse :=
  jwk <- await (getPrivateKey (sf_keyGen F)) ;;
  match jwk with
  | None =>
      Reject (TypeError "Cannot destructure property 'alg' of 'jwk' as it is undefined.")
  | Some jwk =>
      let alg := jwk !! "alg" in
      let kid := jwk !! "kid" in
      if decide (alg = Some "EdDSA") then Reject (Error "EdDSA signing is not supported")
      else if decide (alg = Some "ES256K") then Reject (Error "ES256K signing is not supported")
      else
        let key := {| sk_id := kid; sk_alg := alg;
                      sk_sign := subtle_sign (algMap alg) jwk |} in
        let url := input in
        let request :=
          {| rq_url := url;
             rq_method := default "GET" (init ≫= init_method);
             rq_headers :=
               <["Authorization" := "HttpSig cred=" +:+ dquote +:+ sf_baseUrl F +:+ dquote]>
                 (Headers_entries (default [] (init_headers <$> init)));
             rq_body := init ≫= init_body |} in
        signed <- await (signMessage key (Some "TODO") request) ;;
        await (fetcher_fetch url signed)
  end.

(** *** [ResourceServer] *)

Definition getJWKSConfig (S : ResourceServer) (req : Req) (res : nat) : Async unit :=
  key <- await (getPublicKey (keyGen S)) ;;
  (* Object.assign writes [kid] into the object the generator caches *)
  let key := <["kid" := "TODO"]> key in
  Update (set_publicJwk (keyGen S) (Some key))
    (Update (res_send res (Json {| keys := [key] |})) (Resolve tt)).

Definition introspection_init (token : string) : RequestInit :=
  {| init_method := Some "POST";
     init_headers := [("Content-Type", "application/x-www-form-urlencoded");
                      ("Accept", "application/json")];
     init_headers_accepted := eq_refl;
     init_body := Some ("token_type_hint=access_token&token=" +:+ token) |}.

Definition ticket_init (resourceURI : string) : RequestInit :=
  {| init_method := Some "POST";
     init_headers := [("Content-Type", "application/json")];
     init_headers_accepted := eq_refl;
     init_body :=
       stringify (JArr [JObj [("resource_id", JStr resourceURI);
                              ("resource_scopes", JArr [JStr read_scope])]]) |}.

Definition umaAuthHeader (authServer : string) (ticket : JsVal) : string :=
  "UMA realm=" +:+ dquote +:+ "solid" +:+ dquote +:+
  ",as_uri=" +:+ dquote +:+ authServer +:+ dquote +:+
  ",ticket=" +:+ dquote +:+ toString ticket +:+ dquote.

Definition getResource (S : ResourceServer) (req : Req) (res : nat) : Async unit :=
  let resourceURI := baseUrl S +:+ trim (req_url req) in
  asUmaConfig <- await_settled (authServerUmaConfig S) ;;
  if truthy_string (req_authorization req) then
    token <- settle match split (default "" (req_authorization req)) "Bearer" !! 1%nat with
                    | Some piece => Fulfilled (trim piece)
                    | None =>
                        Rejected (TypeError "Cannot read properties of undefined (reading 'trim')")
                    end ;;
    introspection_endpoint <- settle (get asUmaConfig "introspection_endpoint") ;;
    (try_catch
       (res <- await (SignedFetcher_fetch (fetcher S) introspection_endpoint
                        (Some (introspection_init token))) ;;
        introspectionResponse <- await_settled (json res) ;;
        active <- settle (get introspectionResponse "active") ;;
        if truthy active then Resolve tt
        else Reject (Error "Could not verify access token with introspection response."))
       (fun e => Reject (Error ("Could not verify access token: " +:+ error_toString e)))) ;;;
    Read (fun w =>
      let resource := resources w !! resourceURI in
      Update (res_send res (Text (if truthy_string resource
                                  then default "" resource
                                  else not_found_body)))
        (Resolve tt))
  else
    permission_endpoint <- settle (get asUmaConfig "permission_endpoint") ;;
    ticketRequest <- await (SignedFetcher_fetch (fetcher S) permission_endpoint
                              (Some (ticket_init resourceURI))) ;;
    response <- await_settled (json ticketRequest) ;;
    ticket <- settle (get response "ticket") ;;
    Update (res_setHeader res "WWW-Authenticate" (umaAuthHeader (authServer S) ticket))
      (Update (res_set_statusCode res 401)
         (Update (res_send res (Text "401 Unauthenticated")) (Resolve tt))).

Definition registration_init : RequestInit :=
  {| init_method := Some "POST";
     init_headers := [("Content-Type", "application/json");
                      ("Accept", "application/json")];
     init_headers_accepted := eq_refl;
     init_body :=
       stringify (JObj [("resource_scopes",
                         JArr [JStr "urn:example:css:modes:read";
                               JStr "urn:example:css:modes:append";
                               JStr "urn:example:css:modes:create";
                               JStr "urn:example:css:modes:delete";
                               JStr "urn:example:css:modes:write"])]) |}.

(** The [then] and [catch] callbacks hang off a promise that is not
    awaited: they are a task of their own. *)
Definition registerResourceToAS (S : ResourceServer) (resourcePath : string)
  : Async unit :=
  asUmaConfig <- await_settled (authServerUmaConfig S) ;;
  endpoint <- settle (get asUmaConfig "resource_registration_endpoint") ;;
  Spawn
    (try_catch
       (resp <- SignedFetcher_fetch (fetcher S) endpoint (Some registration_init) ;;
        Await
          (if decide (status resp = 201) then
             body <- await_settled (json resp) ;;
             umaId <- settle (get body "_id") ;;
             match umaId with
             | JStr id =>
                 if decide (id = "") then
                   Reject (Error "Unexpected response from UMA server; no UMA id received.")
                 else Resolve tt
             | _ => Reject (Error "Unexpected response from UMA server; no UMA id received.")
             end
           else
             Await (Reject (Error ("Resource registration request failed. " +:+ text resp)))))
       (fun error => Resolve tt))
    (Resolve tt).

Definition postResource (S : ResourceServer) (req : Req) (res : nat) : Async unit :=
  let resourceURI := baseUrl S +:+ trim (req_url req) in
  Read (fun w =>
    if truthy_string (resources w !! resourceURI) then
      Update (res_send res (Text already_exists_body)) (Resolve tt)
    else
      let resource := req_body req in
      (if truthy_string resource
       then Update (set_resources (fun m => <[resourceURI := default "" resource]> m))
       else fun k => k)
        (Update (res_set_statusCode res 204)
           (Update (res_send res (Text ("Resource saved at " +:+ resourceURI)))
              (Spawn (registerResourceToAS S resourceURI) (Resolve tt))))).


(** *** Notions used in the statements below *)

(** The key a generator creates when [n] keys were generated before. *)
Definition fresh_key (G : JwkGenerator) (n : nat) : JWK :=
  <["alg" := alg_name (alg G)]> (generateKeyPair (alg G) n).

(** The world a generator leaves after generating, persisting and
    caching a key. *)
Definition after_generation (G : JwkGenerator) (w : World) : World :=
  set_privateJwk G (Some (fresh_key G (generated w)))
    (set_storage (fun m => <[key G := {| keys := [fresh_key G (generated w)] |}]> m)
       (set_generated S w)).

(** The message [fetch] hands to the fetcher for a key [jwk] and a
    signature [signature]. *)
Definition signed_request (F : SignedFetcher) (jwk : JWK) (input : JsVal)
  (init : option RequestInit) (signature : string) : SignedRequest :=
  {| sr_url := input;
     sr_method := default "GET" (init ≫= init_method);
     sr_headers :=
       <["Authorization" := "HttpSig cred=" +:+ dquote +:+ sf_baseUrl F +:+ dquote]>
         (Headers_entries (default [] (init_headers <$> init)));
     sr_body := init ≫= init_body;
     sr_signature_input := {| keyid := Some "TODO"; sig_alg := jwk !! "alg" |};
     sr_signature := signature |}.

(** The error with which the [catch] block of [getResource] replaces [e]. *)
Definition verification_error (e : JsError) : JsError :=
  Error ("Could not verify access token: " +:+ error_toString e).

(** The body that [getResource] sends for a verified token. *)
Definition released_body (w : World) (resourceURI : string) : string :=
  if truthy_string (resources w !! resourceURI)
  then default "" (resources w !! resourceURI)
  else not_found_body.

(** The public JWK that [getPublicKey] builds from the private JWK and its
    exported public half: [alg] is taken over from the private key. *)
Definition with_alg_of (priv exported : JWK) : JWK :=
  match priv !! "alg" with
  | Some a => <["alg" := a]> exported
  | None => delete "alg" exported
  end.

(** ** Reasoning about runs *)

(** Induction over the body of an asynchronous function, spawned tasks
    included. *)
Lemma Async_induction (P : forall A : Type, Async A -> Prop)
  (HResolve : forall A (a : A), P A (Resolve a))
  (HReject : forall A e, P A (Reject e))
  (HRead : forall A (k : World -> Async A), (forall w, P A (k w)) -> P A (Read k))
  (HUpdate : forall A f (k : Async A), P A k -> P A (Update f k))
  (HAwait : forall A (k : Async A), P A k -> P A (Await k))
  (HSpawn : forall A c (k : Async A), P unit c -> P A k -> P A (Spawn c k)) :
  forall A (p : Async A), P A p.
Proof.
  fix IH 2. intros A [a|e|k|f k|k|c k].
  - apply HResolve.
  - apply HReject.
  - apply HRead. intros w. apply IH.
  - apply HUpdate, IH.
  - apply HAwait, IH.
  - apply HSpawn; apply IH.
Qed.

Lemma run_bind {A B : Type} (m : Async A) (f : A -> Async B) (w : World) :
  run (bind m f) w =
  match run m w with
  | (Fulfilled a, w1, bg) =>
      let '(r, w2, bg') := run (f a) w1 in (r, w2, (bg ++ bg')%list)
  | (Rejected e, w1, bg) => (Rejected e, w1, bg)
  end.
Proof.
  revert f w.
  induction m as [A a|A e|A k IH|A g k IH|A k IH|A c k _ IH] using Async_induction;
    intros f w; simpl.
  - destruct (run (f a) w) as [[r w2] bg']. reflexivity.
  - reflexivity.
  - apply IH.
  - apply IH.
  - apply IH.
  - destruct (advance c w) as [[c' w1] bg1]. rewrite IH.
    destruct (run k w1) as [[[a|e] w2] bg2].
    + destruct (run (f a) w2) as [[r w3] bg3].
      rewrite <- app_assoc. reflexivity.
    + reflexivity.
Qed.

Lemma run_try_catch {A : Type} (m : Async A) (h : JsError -> Async A) (w : World) :
  run (try_catch m h) w =
  match run m w with
  | (Fulfilled a, w1, bg) => (Fulfilled a, w1, bg)
  | (Rejected e, w1, bg) =>
      let '(r, w2, bg') := run (h e) w1 in (r, w2, (bg ++ bg')%list)
  end.
Proof.
  revert h w.
  induction m as [A a|A e|A k IH|A g k IH|A k IH|A c k _ IH] using Async_induction;
    intros h w; simpl.
  - reflexivity.
  - destruct (run (h e) w) as [[r w2] bg']. reflexivity.
  - apply IH.
  - apply IH.
  - apply IH.
  - destruct (advance c w) as [[c' w1] bg1]. rewrite IH.
    destruct (run k w1) as [[[a|e] w2] bg2].
    + reflexivity.
    + destruct (run (h e) w2) as [[r w3] bg3].
      rewrite <- app_assoc. reflexivity.
Qed.

Lemma run_await {A : Type} (p : Async A) (w : World) : run (await p) w = run p w.
Proof.
  unfold await. rewrite run_bind.
  destruct (run p w) as [[[a|e] w1] bg]; simpl; [rewrite app_nil_r|]; reflexivity.
Qed.

Lemma run_settle {A : Type} (r : Settled A) (w : World) : run (settle r) w = (r, w, []).
Proof. destruct r; reflexivity. Qed.

Lemma run_await_settled {A : Type} (r : Settled A) (w : World) :
  run (await_settled r) w = (r, w, []).
Proof. apply run_settle. Qed.

(** A turn of a task never changes what the task goes on to do when it is
    run alone: suspension points are invisible without other tasks. *)
Lemma run_advance {A : Type} (p : Async A) (w : World) :
  run p w =
  let '(p', w1, bg1) := advance p w in
  let '(r, w2, bg2) := run p' w1 in (r, w2, (bg1 ++ bg2)%list).
Proof.
  revert w.
  induction p as [A a|A e|A k IH|A g k IH|A k IH|A c k _ IH] using Async_induction;
    intros w; simpl.
  - reflexivity.
  - reflexivity.
  - apply IH.
  - apply IH.
  - destruct (run k w) as [[r w2] bg2]. reflexivity.
  - destruct (advance c w) as [[c' w1] bg1]. rewrite IH.
    destruct (advance k w1) as [[k' w2] bg2].
    destruct (run k' w2) as [[r w3] bg3].
    rewrite <- app_assoc. reflexivity.
Qed.

(** ** Strings *)

Example split_bearer : split "Bearer abc" "Bearer" = [""; " abc"].
Proof. reflexivity. Qed.

Example split_twice : split "xBearer a Bearer b" "Bearer" = ["x"; " a "; " b"].
Proof. reflexivity. Qed.

Example split_no_separator : split "Basic xyz" "Bearer" = ["Basic xyz"].
Proof. reflexivity. Qed.

Example split_at_end : split "aBearer" "Bearer" = ["a"; ""].
Proof. reflexivity. Qed.

Example trim_both_ends : trim "  a b  " = "a b".
Proof. reflexivity. Qed.

Example stringify_nested :
  stringify (JArr [JObj [("a", JStr "x"); ("u", JUndefined); ("n", JNum {| int_value := -12; int_safe := eq_refl |})]]) =
  Some ("[{" +:+ dquote +:+ "a" +:+ dquote +:+ ":" +:+ dquote +:+ "x" +:+ dquote +:+
        "," +:+ dquote +:+ "n" +:+ dquote +:+ ":-12}]").
Proof. vm_compute. reflexivity. Qed.

Example quote_escapes :
  quote ("a" +:+ String (ascii_of_nat 31) "b\c") =
  dquote +:+ "a\u001fb\\c" +:+ dquote.
Proof. vm_compute. reflexivity. Qed.

Lemma startsWith_correct (p s : string) :
  startsWith p s = true <-> exists r, s = p +:+ r.
Proof.
  revert s. induction p as [|a p IH]; intros s; simpl.
  - split; [intros _; exists s; reflexivity | reflexivity].
  - destruct s as [|b s]; simpl.
    + split; [discriminate | intros [r Hr]; discriminate].
    + destruct (decide (a = b)) as [->|Hne].
      * rewrite IH. split; intros [r Hr]; exists r.
        -- rewrite Hr. reflexivity.
        -- simpl in Hr. injection Hr as Hr. exact Hr.
      * split; [discriminate | intros [r Hr]].
        simpl in Hr. injection Hr as Hab _. congruence.
Qed.

Lemma includes_startsWith (s sep : string) :
  startsWith sep s = true -> includes s sep = true.
Proof. destruct s; simpl; intros ->; reflexivity. Qed.

Lemma includes_correct (s sep : string) :
  includes s sep = true <-> exists pre post, s = pre +:+ sep +:+ post.
Proof.
  split.
  - induction s as [|c s IH]; simpl; rewrite orb_true_iff; intros [H|H].
    + apply startsWith_correct in H as [r Hr]. exists "", r. exact Hr.
    + discriminate.
    + apply startsWith_correct in H as [r Hr]. exists "", r. exact Hr.
    + destruct (IH H) as (pre & post & ->). exists (String c pre), post. reflexivity.
  - intros (pre & post & ->). induction pre as [|c pre IH]; simpl.
    + apply includes_startsWith, startsWith_correct. exists post. reflexivity.
    + rewrite orb_true_iff. right. exact IH.
Qed.

Lemma append_assoc_unit (acc : string) (c : ascii) (s : string) :
  (acc +:+ String c "") +:+ s = acc +:+ String c s.
Proof.
  induction acc as [|a acc IH]; [reflexivity|].
  change (String a ((acc +:+ String c "") +:+ s) = String a (acc +:+ String c s)).
  rewrite IH. reflexivity.
Qed.

Lemma append_empty_r (s : string) : s +:+ "" = s.
Proof.
  induction s as [|a s IH]; [reflexivity|].
  change (String a (s +:+ "") = String a s). rewrite IH. reflexivity.
Qed.

(** A string that does not include the separator is split into itself. *)
Lemma split_from_not_included (sep s acc : string) :
  includes s sep = false -> split_from sep 0 acc s = [acc +:+ s].
Proof.
  revert acc. induction s as [|c s IH]; intros acc; simpl.
  - intros _. rewrite append_empty_r. reflexivity.
  - rewrite orb_false_iff. intros [Hstart Hrest].
    simpl in Hstart. rewrite Hstart. rewrite IH by exact Hrest. rewrite append_assoc_unit. reflexivity.
Qed.

Lemma split_not_included (s sep : string) :
  (forall pre post, s <> pre +:+ sep +:+ post) -> split s sep = [s].
Proof.
  intros Hnot. unfold split. apply split_from_not_included.
  destruct (includes s sep) eqn:E; [|reflexivity].
  apply includes_correct in E as (pre & post & ->). exfalso. exact (Hnot pre post eq_refl).
Qed.

(** ** The key generator and the signer, run alone *)

Lemma run_getPrivateKey (G : JwkGenerator) (w : World) :
  run (getPrivateKey G) w =
  match privateJwk (gen_state w (gen_id G)) with
  | Some k => (Fulfilled (Some k), w, [])
  | None =>
      match storage w !! key G with
      | Some jwks =>
          (Fulfilled (keys jwks !! 0%nat), set_privateJwk G (keys jwks !! 0%nat) w, [])
      | None =>
          (Fulfilled (Some (fresh_key G (generated w))), after_generation G w, [])
      end
  end.
Proof.
  unfold getPrivateKey. simpl.
  destruct (privateJwk (gen_state w (gen_id G))); [reflexivity|].
  destruct (storage w !! key G); reflexivity.
Qed.

(** What a run of [getPrivateKey] leaves alone. *)
Lemma getPrivateKey_frame (G : JwkGenerator) (w : World) :
  let w1 := (run (getPrivateKey G) w).1.2 in
  resources w1 = resources w /\ outbox w1 = outbox w /\ responses w1 = responses w.
Proof.
  rewrite run_getPrivateKey.
  destruct (privateJwk (gen_state w (gen_id G))); [done|].
  destruct (storage w !! key G); done.
Qed.

Ltac fetch_tail :=
  repeat case_decide; try reflexivity;
  rewrite run_bind, run_await; unfold signMessage;
  rewrite run_bind, run_await_settled; cbn [sk_sign];
  destruct (subtle_sign _ _); [|reflexivity];
  cbn [run app]; rewrite run_await; unfold fetcher_fetch; cbn [run];
  rewrite run_settle; reflexivity.

Lemma run_fetch (F : SignedFetcher) (input : JsVal) (init : option RequestInit)
  (w : World) :
  run (SignedFetcher_fetch F input init) w =
  match run (getPrivateKey (sf_keyGen F)) w with
  | (Fulfilled None, w0, _) =>
      (Rejected (TypeError "Cannot destructure property 'alg' of 'jwk' as it is undefined."),
       w0, [])
  | (Fulfilled (Some jwk), w0, _) =>
      if decide (jwk !! "alg" = Some "EdDSA")
      then (Rejected (Error "EdDSA signing is not supported"), w0, [])
      else if decide (jwk !! "alg" = Some "ES256K")
      then (Rejected (Error "ES256K signing is not supported"), w0, [])
      else
        match subtle_sign (algMap (jwk !! "alg")) jwk with
        | Rejected e => (Rejected e, w0, [])
        | Fulfilled signature =>
            let signed := signed_request F jwk input init signature in
            (network (outbox w0) input signed,
             set_outbox (fun o => (o ++ [(input, signed)])%list) w0, [])
        end
  | (Rejected e, w0, _) => (Rejected e, w0, [])
  end.
Proof.
  unfold SignedFetcher_fetch.
  rewrite run_bind, run_await, run_getPrivateKey.
  destruct (privateJwk (gen_state w (gen_id (sf_keyGen F)))) as [jwk|]; [fetch_tail|].
  destruct (storage w !! key (sf_keyGen F)) as [jwks|]; [|fetch_tail].
  destruct (keys jwks !! 0%nat) as [jwk|]; [fetch_tail|reflexivity].
Qed.

(** A call of [fetch] that resolves has handed exactly one message to the
    fetcher, the signed form of its arguments, and has touched neither the
    resources nor any response object; it spawns nothing. *)
Lemma fetch_fulfilled (F : SignedFetcher) (input : JsVal) (init : option RequestInit)
  (w w1 : World) (resp : HttpResponse) (bg : list (Async unit)) :
  run (SignedFetcher_fetch F input init) w = (Fulfilled resp, w1, bg) ->
  exists jwk signature,
    let signed := signed_request F jwk input init signature in
    outbox w1 = (outbox w ++ [(input, signed)])%list /\
    network (outbox w) input signed = Fulfilled resp /\
    resources w1 = resources w /\ responses w1 = responses w /\ bg = [].
Proof.
  rewrite run_fetch.
  pose proof (getPrivateKey_frame (sf_keyGen F) w) as Hframe.
  destruct (run (getPrivateKey (sf_keyGen F)) w) as [[[[jwk|]|e] w0] bg0];
    simpl in Hframe; destruct Hframe as (Hres & Hout & Hresp); [|done|done].
  repeat case_decide; try done.
  destruct (subtle_sign _ _) as [signature|]; [|done].
  cbn zeta. intros [= Hnet <- <-].
  exists jwk, signature. cbn zeta. rewrite <- Hout. done.
Qed.

(** Whatever a call of [fetch] settles to, it leaves the resources and the
    response objects alone and spawns nothing. *)
Lemma fetch_frame (F : SignedFetcher) (input : JsVal) (init : option RequestInit)
  (w : World) :
  let '(_, w1, bg) := run (SignedFetcher_fetch F input init) w in
  resources w1 = resources w /\ responses w1 = responses w /\ bg = [].
Proof.
  rewrite run_fetch.
  pose proof (getPrivateKey_frame (sf_keyGen F) w) as Hframe.
  destruct (run (getPrivateKey (sf_keyGen F)) w) as [[[[jwk|]|e] w0] bg0];
    simpl in Hframe; destruct Hframe as (Hres & Hout & Hresp); [|done|done].
  repeat case_decide; try done.
  destruct (subtle_sign _ _) as [signature|]; done.
Qed.

(** ** [getResource] *)

(** The branch of [getResource] for a request that carries a token, in
    terms of what the introspection call settles to. *)
Lemma run_getResource_bearer (S : ResourceServer) (req : Req) (res : nat) (w : World)
  (cfg endpoint : JsVal) (piece : string) :
  truthy_string (req_authorization req) = true ->
  authServerUmaConfig S = Fulfilled cfg ->
  split (default "" (req_authorization req)) "Bearer" !! 1%nat = Some piece ->
  get cfg "introspection_endpoint" = Fulfilled endpoint ->
  run (getResource S req res) w =
  match run (SignedFetcher_fetch (fetcher S) endpoint
               (Some (introspection_init (trim piece)))) w with
  | (Fulfilled resp, w1, _) =>
      match json resp with
      | Fulfilled body =>
          match get body "active" with
          | Fulfilled active =>
              if truthy active
              then (Fulfilled tt,
                    res_send res (Text (released_body w1 (baseUrl S +:+ trim (req_url req)))) w1,
                    [])
              else (Rejected (verification_error
                                (Error "Could not verify access token with introspection response.")),
                    w1, [])
          | Rejected e => (Rejected (verification_error e), w1, [])
          end
      | Rejected e => (Rejected (verification_error e), w1, [])
      end
  | (Rejected e, w1, _) => (Rejected (verification_error e), w1, [])
  end.
Proof.
  intros Hauth Hcfg Hsplit Hep. unfold getResource.
  rewrite run_bind, run_await_settled, Hcfg, Hauth, Hsplit.
  rewrite run_bind, run_settle, run_bind, Hep, run_settle, run_bind, run_try_catch.
  rewrite run_bind, run_await.
  pose proof (fetch_frame (fetcher S) endpoint
                (Some (introspection_init (trim piece))) w) as Hframe.
  destruct (run (SignedFetcher_fetch _ _ _) w) as [[[resp|e] w1] bg].
  - destruct Hframe as (_ & _ & ->).
    rewrite run_bind, run_await_settled.
    destruct (json resp) as [body|e]; [|reflexivity].
    rewrite run_bind, run_settle.
    destruct (get body "active") as [active|e]; [|reflexivity].
    destruct (truthy active); reflexivity.
  - destruct Hframe as (_ & _ & ->). reflexivity.
Qed.

(** A header from which a token can be extracted is a truthy string. *)
Lemma bearer_header_truthy (header piece : string) :
  split header "Bearer" !! 1%nat = Some piece -> truthy_string (Some header) = true.
Proof. destruct header; [discriminate | reflexivity]. Qed.

(** X19. Every way a request that carries an Authorization header can end:
    either [getResource] rejects without having written to any response
    object or to the store, or it resolves, and then the introspection call
    has answered with a truthy [active]. *)
Lemma getResource_sends_only_when_verified
  (S : ResourceServer) (req : Req) (res : nat) (w : World) :
  truthy_string (req_authorization req) = true ->
  let '(r, w', _) := run (getResource S req res) w in
  (exists e, r = Rejected e /\ responses w' = responses w /\ resources w' = resources w) \/
  (r = Fulfilled tt /\
   exists cfg endpoint piece resp body active w1 bg,
     authServerUmaConfig S = Fulfilled cfg /\
     split (default "" (req_authorization req)) "Bearer" !! 1%nat = Some piece /\
     get cfg "introspection_endpoint" = Fulfilled endpoint /\
     run (SignedFetcher_fetch (fetcher S) endpoint
            (Some (introspection_init (trim piece)))) w = (Fulfilled resp, w1, bg) /\
     json resp = Fulfilled body /\
     get body "active" = Fulfilled active /\
     truthy active = true).
Proof.
  intros Hauth.
  destruct (authServerUmaConfig S) as [cfg|e] eqn:Hcfg.
  2:{ unfold getResource. rewrite run_bind, run_await_settled, Hcfg. left. eauto. }
  destruct (split (default "" (req_authorization req)) "Bearer" !! 1%nat)
    as [piece|] eqn:Hsplit.
  2:{ unfold getResource. rewrite run_bind, run_await_settled, Hcfg, Hauth, Hsplit.
      cbn [run bind settle]. left. eauto. }
  destruct (get cfg "introspection_endpoint") as [endpoint|e] eqn:Hep.
  2:{ unfold getResource. rewrite run_bind, run_await_settled, Hcfg, Hauth, Hsplit.
      rewrite run_bind, run_settle, run_bind, Hep, run_settle. left. eauto. }
  rewrite (run_getResource_bearer S req res w cfg endpoint piece Hauth Hcfg Hsplit Hep).
  pose proof (fetch_frame (fetcher S) endpoint
                (Some (introspection_init (trim piece))) w) as Hframe.
  destruct (run (SignedFetcher_fetch _ _ _) w) as [[[resp|e] w1] bg] eqn:Hfetch;
    destruct Hframe as (Hres & Hresp & _); [|left; eauto].
  destruct (json resp) as [body|e] eqn:Hjson; [|left; eauto].
  destruct (get body "active") as [active|e] eqn:Hactive; [|left; eauto].
  destruct (truthy active) eqn:Htruthy; [|left; eauto].
  right. split; [reflexivity|].
  exists cfg, endpoint, piece, resp, body, active, w1, bg. auto 10.
Qed.


(** C6 (as amended). For a GET request that carries a bearer token, when
    the introspection call itself fails (the signed fetch rejects, or the
    body of the answer is not JSON) with an error [e], [getResource]
    rejects with the error of its catch block, whose message is the text of
    [e] after a fixed prefix, and writes to no response object. It is the
    same class of error, built at the same place, as for a token reported
    inactive. *)
Theorem getResource_introspection_failure
  (S : ResourceServer) (req : Req) (res : nat) (w w1 : World)
  (header piece : string) (cfg endpoint : JsVal) (e : JsError)
  (bg : list (Async unit)) :
  req_authorization req = Some header ->
  split header "Bearer" !! 1%nat = Some piece ->
  authServerUmaConfig S = Fulfilled cfg ->
  get cfg "introspection_endpoint" = Fulfilled endpoint ->
  (run (SignedFetcher_fetch (fetcher S) endpoint
          (Some (introspection_init (trim piece)))) w = (Rejected e, w1, bg) \/
   exists resp,
     run (SignedFetcher_fetch (fetcher S) endpoint
            (Some (introspection_init (trim piece)))) w = (Fulfilled resp, w1, bg) /\
     json resp = Rejected e) ->
  run (getResource S req res) w =
    (Rejected (Error ("Could not verify access token: " +:+ error_toString e)), w1, []) /\
  responses w1 = responses w.
Proof.
  intros Hauth Hsplit Hcfg Hep Hfail.
  rewrite (run_getResource_bearer S req res w cfg endpoint piece);
    [ | rewrite Hauth; exact (bearer_header_truthy _ _ Hsplit)
      | exact Hcfg | rewrite Hauth; exact Hsplit | exact Hep ].
  pose proof (fetch_frame (fetcher S) endpoint
                (Some (introspection_init (trim piece))) w) as Hframe.
  destruct Hfail as [Hfetch | (resp & Hfetch & Hjson)];
    rewrite Hfetch in Hframe |- *; destruct Hframe as (_ & Hresp & _).
  - auto.
  - rewrite Hjson. auto.
Qed.

(** C9 (as amended). For a GET request whose Authorization header is not
    empty and does not contain [Bearer], [getResource] rejects and leaves
    the world as it was: nothing was handed to the fetcher and no response
    object was written to. Once the AS metadata is available the rejection
    is the TypeError of calling [trim] on [undefined]. *)
Theorem getResource_header_without_Bearer
  (S : ResourceServer) (req : Req) (res : nat) (w : World) (header : string) :
  req_authorization req = Some header ->
  header <> "" ->
  (forall pre post, header <> pre +:+ "Bearer" +:+ post) ->
  exists e,
    run (getResource S req res) w = (Rejected e, w, []) /\
    forall cfg, authServerUmaConfig S = Fulfilled cfg ->
      e = TypeError "Cannot read properties of undefined (reading 'trim')".
Proof.
  intros Hauth Hne Hnot. unfold getResource.
  rewrite run_bind, run_await_settled.
  destruct (authServerUmaConfig S) as [cfg|e0].
  - exists (TypeError "Cannot read properties of undefined (reading 'trim')").
    split; [|reflexivity].
    rewrite Hauth. cbn [truthy_string default from_option id].
    rewrite bool_decide_eq_false_2 by exact Hne. cbn [negb].
    rewrite (split_not_included header "Bearer" Hnot). reflexivity.
  - exists e0. split; [reflexivity | discriminate].
Qed.

(** Reading back a response object that was written to. *)
Lemma res_of_res_send (res : nat) (b : Body) (w : World) :
  res_of (res_send res b w) res =
  {| statusCode := statusCode (res_of w res);
     res_headers := res_headers (res_of w res);
     sent := Some b |}.
Proof. unfold res_of at 1, res_send. simpl. rewrite lookup_insert_eq. reflexivity. Qed.

Lemma res_of_res_set_statusCode (res : nat) (code : Z) (w : World) :
  res_of (res_set_statusCode res code w) res =
  {| statusCode := code;
     res_headers := res_headers (res_of w res);
     sent := sent (res_of w res) |}.
Proof. unfold res_of at 1, res_set_statusCode. simpl. rewrite lookup_insert_eq. reflexivity. Qed.

Lemma res_of_res_setHeader (res : nat) (name value : string) (w : World) :
  res_of (res_setHeader res name value w) res =
  {| statusCode := statusCode (res_of w res);
     res_headers := (res_headers (res_of w res) ++ [(name, value)])%list;
     sent := sent (res_of w res) |}.
Proof. unfold res_of at 1, res_setHeader. simpl. rewrite lookup_insert_eq. reflexivity. Qed.

Lemma res_of_fresh (w : World) (res : nat) :
  responses w !! res = None -> res_of w res = new_res.
Proof. unfold res_of. intros ->. reflexivity. Qed.

(** C2. For a GET request without an Authorization header (or with an empty
    one), once the AS metadata is available and the AS has answered the
    ticket request with a JSON body whose [ticket] is the string [ticket]:
    the request handed to the fetcher went to the permission endpoint as a
    POST whose body is the JSON text of
    [[{resource_id: resourceURI, resource_scopes: [read scope]}]], and the
    response object carries status 401, the body [401 Unauthenticated] and
    the one header [WWW-Authenticate] with the value
    [UMA realm="solid",as_uri="<authServer>",ticket="<ticket>"]. *)
Theorem getResource_without_token_challenges
  (S : ResourceServer) (req : Req) (res : nat) (w w1 : World)
  (cfg endpoint body : JsVal) (ticket : string)
  (resp : HttpResponse) (bg : list (Async unit)) :
  let resourceURI := baseUrl S +:+ trim (req_url req) in
  truthy_string (req_authorization req) = false ->
  authServerUmaConfig S = Fulfilled cfg ->
  get cfg "permission_endpoint" = Fulfilled endpoint ->
  run (SignedFetcher_fetch (fetcher S) endpoint (Some (ticket_init resourceURI))) w
    = (Fulfilled resp, w1, bg) ->
  json resp = Fulfilled body ->
  get body "ticket" = Fulfilled (JStr ticket) ->
  responses w !! res = None ->
  exists (signed : SignedRequest) (w2 : World),
    run (getResource S req res) w = (Fulfilled tt, w2, []) /\
    outbox w2 = (outbox w ++ [(endpoint, signed)])%list /\
    network (outbox w) endpoint signed = Fulfilled resp /\
    sr_url signed = endpoint /\
    sr_method signed = "POST" /\
    sr_body signed =
      stringify (JArr [JObj [("resource_id", JStr resourceURI);
                             ("resource_scopes", JArr [JStr "urn:example:css:modes:read"])]]) /\
    res_of w2 res =
      {| statusCode := 401;
         res_headers :=
           [("WWW-Authenticate",
             "UMA realm=" +:+ dquote +:+ "solid" +:+ dquote +:+
             ",as_uri=" +:+ dquote +:+ authServer S +:+ dquote +:+
             ",ticket=" +:+ dquote +:+ ticket +:+ dquote)];
         sent := Some (Text "401 Unauthenticated") |} /\
    resources w2 = resources w.
Proof.
  intros resourceURI Hauth Hcfg Hep Hfetch Hjson Hticket Hfresh.
  destruct (fetch_fulfilled _ _ _ _ _ _ _ Hfetch)
    as (jwk & signature & Hout & Hnet & Hres & Hresp & ->).
  eexists (signed_request (fetcher S) jwk endpoint (Some (ticket_init resourceURI)) signature).
  eexists. split.
  - unfold getResource. fold resourceURI.
    rewrite run_bind, run_await_settled, Hcfg, Hauth.
    rewrite run_bind, Hep, run_settle, run_bind, run_await, Hfetch.
    rewrite run_bind, run_await_settled, Hjson, run_bind, Hticket, run_settle.
    cbn [run app]. reflexivity.
  - cbn zeta in Hout, Hnet.
    repeat split; try done.
    rewrite res_of_res_send, res_of_res_set_statusCode, res_of_res_setHeader.
    rewrite res_of_fresh by (rewrite Hresp; exact Hfresh). reflexivity.
Qed.

(** ** [registerResourceToAS] *)

(** X18. Once the AS metadata is available, the registration resolves at once
    and leaves one task behind; after that task has run, the outbox is the
    one that a signed POST of the scopes to the registration endpoint
    leaves, and neither the store nor any response object has changed,
    whatever the AS answered. *)
Lemma registerResourceToAS_requests
  (S : ResourceServer) (resourcePath : string) (w : World) (cfg endpoint : JsVal) :
  authServerUmaConfig S = Fulfilled cfg ->
  get cfg "resource_registration_endpoint" = Fulfilled endpoint ->
  exists w1 task,
    run (registerResourceToAS S resourcePath) w = (Fulfilled tt, w1, [task]) /\
    outbox (drain 1 [task] w1) =
      outbox (run (SignedFetcher_fetch (fetcher S) endpoint (Some registration_init)) w).1.2 /\
    resources (drain 1 [task] w1) = resources w /\
    responses (drain 1 [task] w1) = responses w.
Proof.
  intros Hcfg Hep. unfold registerResourceToAS.
  rewrite run_bind, run_await_settled, Hcfg, run_bind, Hep, run_settle.
  set (c := try_catch _ _). cbn [run].
  assert (Hc : exists r, run c w =
            (r, (run (SignedFetcher_fetch (fetcher S) endpoint (Some registration_init)) w).1.2,
             [])).
  { unfold c. rewrite run_try_catch, run_bind.
    pose proof (fetch_frame (fetcher S) endpoint (Some registration_init) w) as Hframe.
    destruct (run (SignedFetcher_fetch _ _ _) w) as [[[resp|e] w1] bg];
      destruct Hframe as (_ & _ & ->); cbn [fst snd run]; [|eauto].
    case_decide.
    - rewrite run_bind, run_await_settled.
      destruct (json resp) as [body|e]; [|eauto].
      rewrite run_bind, run_settle.
      destruct (get body "_id") as [umaId|e]; [|eauto].
      destruct umaId; cbn [run]; eauto.
      case_decide; cbn [run]; eauto.
    - cbn [run]. eauto. }
  destruct Hc as (r & Hc).
  pose proof (fetch_frame (fetcher S) endpoint (Some registration_init) w) as Hframe.
  destruct (run (SignedFetcher_fetch _ _ _) w) as [[r0 w0] bg0];
    destruct Hframe as (Hres & Hresp & _). cbn [fst snd] in Hc.
  rewrite run_advance in Hc.
  destruct (advance c w) as [[c' w1] bg1].
  destruct (run c' w1) as [[r2 w2] bg2] eqn:Hrest.
  injection Hc as _ <- Hbg. apply app_eq_nil in Hbg as [-> ->].
  exists w1, c'. cbn [drain app]. rewrite Hrest. cbn [drain fst snd]. auto.
Qed.

(** ** [postResource] *)

(** A call of [postResource] run alone. The task it leaves behind is the
    call of [registerResourceToAS] that it does not await. *)
Lemma run_postResource (S : ResourceServer) (req : Req) (res : nat) (w : World) :
  let resourceURI := baseUrl S +:+ trim (req_url req) in
  exists task,
    (forall w', run task w' = run (registerResourceToAS S resourceURI) w') /\
    run (postResource S req res) w =
    if truthy_string (resources w !! resourceURI)
    then (Fulfilled tt, res_send res (Text already_exists_body) w, [])
    else
      let stored :=
        if truthy_string (req_body req)
        then set_resources (fun m => <[resourceURI := default "" (req_body req)]> m) w
        else w in
      (Fulfilled tt,
       res_send res (Text ("Resource saved at " +:+ resourceURI))
         (res_set_statusCode res 204 stored),
       [task]).
Proof.
  intros resourceURI. unfold postResource. fold resourceURI.
  eexists. split; [|cbn [run]].
  2:{ destruct (truthy_string (resources w !! resourceURI)); [reflexivity|].
      destruct (truthy_string (req_body req)); cbn [run advance]; 
      unfold registerResourceToAS, await_settled; cbn [bind advance app]; reflexivity. }
  intros w'. unfold registerResourceToAS, await_settled. reflexivity.
Qed.

Lemma truthy_string_Some (s : string) : s <> "" -> truthy_string (Some s) = true.
Proof. intros Hne. simpl. rewrite bool_decide_eq_false_2 by exact Hne. reflexivity. Qed.

(** The first write to a URI stores the body that was posted. *)
Lemma postResource_stores (S : ResourceServer) (req : Req) (res : nat) (w : World)
  (content : string) :
  let resourceURI := baseUrl S +:+ trim (req_url req) in
  truthy_string (resources w !! resourceURI) = false ->
  req_body req = Some content ->
  content <> "" ->
  resources (run (postResource S req res) w).1.2 = <[resourceURI := content]> (resources w).
Proof.
  intros resourceURI Hfirst Hbody Hne.
  destruct (run_postResource S req res w) as (task & _ & ->). fold resourceURI.
  rewrite Hfirst, Hbody, (truthy_string_Some content Hne). reflexivity.
Qed.

(** C4. After a first POST to a URI has stored its content, a POST to the
    same URI, whenever it comes and whatever it carries, leaves the store
    as it is and answers with the default status 200 and the body
    [Resource already exists in Demo UMA Resource Server!]. The store
    being unchanged, the same holds for every POST after that. *)
Theorem postResource_write_once
  (S : ResourceServer) (first later : Req) (res1 : nat) (w : World) (content : string) :
  let resourceURI := baseUrl S +:+ trim (req_url first) in
  let w1 := (run (postResource S first res1) w).1.2 in
  req_url later = req_url first ->
  truthy_string (resources w !! resourceURI) = false ->
  req_body first = Some content ->
  content <> "" ->
  resources w1 !! resourceURI = Some content /\
  forall (w' : World) (res2 : nat),
    resources w' = resources w1 ->
    responses w' !! res2 = None ->
    exists w2,
      run (postResource S later res2) w' = (Fulfilled tt, w2, []) /\
      resources w2 = resources w1 /\
      res_of w2 res2 =
        {| statusCode := 200;
           res_headers := [];
           sent := Some (Text "Resource already exists in Demo UMA Resource Server!") |}.
Proof.
  intros resourceURI w1 Hurl Hfirst Hbody Hne.
  assert (Hstored : resources w1 !! resourceURI = Some content).
  { unfold w1. rewrite (postResource_stores S first res1 w content Hfirst Hbody Hne).
    apply lookup_insert_eq. }
  split; [exact Hstored|].
  intros w' res2 Hsame Hfresh.
  destruct (run_postResource S later res2 w') as (task & _ & ->).
  rewrite Hurl. fold resourceURI.
  rewrite Hsame, Hstored, (truthy_string_Some content Hne).
  eexists. split; [reflexivity|]. split; [exact Hsame|].
  rewrite res_of_res_send, (res_of_fresh w' res2 Hfresh). reflexivity.
Qed.

(** C10. A POST to a URI that is not in the store, with a body that is
    empty or [undefined], answers 204 with the body [Resource saved at
    <uri>] and leaves behind the call of [registerResourceToAS] for that
    URI, but the store is as it was; a later POST with content to the same
    URI stores that content. *)
Theorem postResource_falsy_body
  (S : ResourceServer) (req : Req) (res : nat) (w : World) :
  let resourceURI := baseUrl S +:+ trim (req_url req) in
  resources w !! resourceURI = None ->
  truthy_string (req_body req) = false ->
  responses w !! res = None ->
  exists (w1 : World) (task : Async unit),
    run (postResource S req res) w = (Fulfilled tt, w1, [task]) /\
    (forall w', run task w' = run (registerResourceToAS S resourceURI) w') /\
    resources w1 = resources w /\
    resources w1 !! resourceURI = None /\
    res_of w1 res =
      {| statusCode := 204;
         res_headers := [];
         sent := Some (Text ("Resource saved at " +:+ resourceURI)) |} /\
    forall (later : Req) (res2 : nat) (content : string),
      req_url later = req_url req ->
      req_body later = Some content ->
      content <> "" ->
      resources (run (postResource S later res2) w1).1.2 !! resourceURI = Some content.
Proof.
  intros resourceURI Habsent Hfalsy Hfresh.
  destruct (run_postResource S req res w) as (task & Htask & Hrun).
  fold resourceURI in Htask, Hrun. rewrite Habsent, Hfalsy in Hrun. cbn [truthy_string] in Hrun.
  eexists. exists task. split; [exact Hrun|]. split; [exact Htask|].
  split; [reflexivity|]. split; [exact Habsent|]. split.
  - rewrite res_of_res_send, res_of_res_set_statusCode, (res_of_fresh w res Hfresh).
    reflexivity.
  - intros later res2 content Hurl Hbody Hne.
    rewrite (postResource_stores S later res2 _ content); rewrite ?Hurl; fold resourceURI.
    + apply lookup_insert_eq.
    + cbn [resources res_send res_set_statusCode set_responses]. rewrite Habsent. reflexivity.
    + exact Hbody.
    + exact Hne.
Qed.

(** C3. For a GET request that carries a bearer token, when the
    introspection call has answered with [active: true], [getResource]
    resolves after sending on the response object
    - the content stored under the URI: the content that the first POST to
      that URI carried, as long as the store has not changed since;
    - the text [Resource not found in Resource Server Storage] when the
      store has nothing under the URI.
    Either way the promise is fulfilled: an unknown URI is not the
    rejection that an unverified token gives. *)
Theorem getResource_active_token_releases
  (S : ResourceServer) (req : Req) (res : nat) (w w1 : World)
  (header piece : string) (cfg endpoint body : JsVal)
  (resp : HttpResponse) (bg : list (Async unit)) :
  let resourceURI := baseUrl S +:+ trim (req_url req) in
  req_authorization req = Some header ->
  split header "Bearer" !! 1%nat = Some piece ->
  authServerUmaConfig S = Fulfilled cfg ->
  get cfg "introspection_endpoint" = Fulfilled endpoint ->
  run (SignedFetcher_fetch (fetcher S) endpoint
         (Some (introspection_init (trim piece)))) w = (Fulfilled resp, w1, bg) ->
  json resp = Fulfilled body ->
  get body "active" = Fulfilled (JBool true) ->
  exists w2,
    run (getResource S req res) w = (Fulfilled tt, w2, []) /\
    resources w2 = resources w /\
    (forall content,
       resources w !! resourceURI = Some content -> content <> "" ->
       sent (res_of w2 res) = Some (Text content)) /\
    (forall (post : Req) (res0 : nat) (w0 : World) (content : string),
       req_url post = req_url req ->
       truthy_string (resources w0 !! resourceURI) = false ->
       req_body post = Some content ->
       content <> "" ->
       resources w = resources (run (postResource S post res0) w0).1.2 ->
       sent (res_of w2 res) = Some (Text content)) /\
    (resources w !! resourceURI = None ->
     sent (res_of w2 res) = Some (Text "Resource not found in Resource Server Storage")).
Proof.
  intros resourceURI Hauth Hsplit Hcfg Hep Hfetch Hjson Hactive.
  rewrite (run_getResource_bearer S req res w cfg endpoint piece);
    [ | rewrite Hauth; exact (bearer_header_truthy _ _ Hsplit)
      | exact Hcfg | rewrite Hauth; exact Hsplit | exact Hep ].
  rewrite Hfetch, Hjson, Hactive. cbn [truthy]. fold resourceURI.
  apply fetch_fulfilled in Hfetch as (jwk & signature & _ & _ & Hres & _ & _).
  eexists. split; [reflexivity|]. split; [exact Hres|].
  rewrite res_of_res_send. cbn [sent]. unfold released_body. rewrite Hres.
  assert (Hstored : forall content,
            resources w !! resourceURI = Some content -> content <> "" ->
            Some (Text (if truthy_string (resources w !! resourceURI)
                        then default "" (resources w !! resourceURI)
                        else not_found_body)) = Some (Text content)).
  { intros content Hstored Hne.
    rewrite Hstored, (truthy_string_Some content Hne). reflexivity. }
  split; [exact Hstored|]. split.
  - intros post res0 w0 content Hurl Hfirst Hbody Hne Hsame.
    apply Hstored; [|exact Hne].
    rewrite Hsame, (postResource_stores S post res0 w0 content);
      rewrite ?Hurl; fold resourceURI; try assumption.
    apply lookup_insert_eq.
  - intros ->. reflexivity.
Qed.

(** ** The key pair *)

Lemma run_getPublicKey (G : JwkGenerator) (w : World) :
  run (getPublicKey G) w =
  match publicJwk (gen_state w (gen_id G)) with
  | Some k => (Fulfilled k, w, [])
  | None =>
      match run (getPrivateKey G) w with
      | (Fulfilled priv, w1, _) =>
          match exportPublicJwk priv, priv with
          | Rejected e, _ => (Rejected e, w1, [])
          | Fulfilled _, None =>
              (Rejected (TypeError "Cannot read properties of undefined (reading 'alg')"),
               w1, [])
          | Fulfilled exported, Some priv =>
              (Fulfilled (with_alg_of priv exported),
               set_publicJwk G (Some (with_alg_of priv exported)) w1, [])
          end
      | (Rejected e, w1, _) => (Rejected e, w1, [])
      end
  end.
Proof.
  unfold getPublicKey. cbn [run].
  destruct (publicJwk (gen_state w (gen_id G))); [reflexivity|].
  rewrite run_bind, run_await, run_getPrivateKey.
  destruct (privateJwk (gen_state w (gen_id G))) as [k|].
  { rewrite run_bind, run_await_settled.
    destruct (exportPublicJwk (Some k)); reflexivity. }
  destruct (storage w !! key G) as [jwks|].
  - rewrite run_bind, run_await_settled.
    destruct (exportPublicJwk (keys jwks !! 0%nat)); [|reflexivity].
    destruct (keys jwks !! 0%nat); reflexivity.
  - rewrite run_bind, run_await_settled.
    destruct (exportPublicJwk (Some (fresh_key G (generated w)))); reflexivity.
Qed.

(** The state of a generator object that is not in the world yet. *)
Lemma gen_state_fresh (w : World) (id : nat) :
  generators w !! id = None -> gen_state w id = new_gen.
Proof. unfold gen_state. intros ->. reflexivity. Qed.

(** C7. [getPrivateKey] returns the key cached in the generator if there is
    one, without touching the world; otherwise the first key of the set
    stored under the storage key, without generating; and only when both
    are absent does it generate a key [k], store it under the storage key
    and cache it. After that, a generator object constructed anew over the
    same backing store, with the same storage key, returns [k] without
    another generation, and its [getPublicKey] derives the public key from
    [k]: it settles to the public half that the platform exports for [k],
    with the [alg] member of [k] put back, again without generating and
    without writing to the store (and rejects with the platform's error if
    the export fails). The generator that made [k] derives that same
    public key. *)
Theorem getPrivateKey_cache_store_generate (G : JwkGenerator) (w : World) :
  (forall k,
     privateJwk (gen_state w (gen_id G)) = Some k ->
     run (getPrivateKey G) w = (Fulfilled (Some k), w, [])) /\
  (forall jwks,
     privateJwk (gen_state w (gen_id G)) = None ->
     storage w !! key G = Some jwks ->
     exists w1,
       run (getPrivateKey G) w = (Fulfilled (keys jwks !! 0%nat), w1, []) /\
       generated w1 = generated w /\ storage w1 = storage w /\
       privateJwk (gen_state w1 (gen_id G)) = keys jwks !! 0%nat) /\
  (privateJwk (gen_state w (gen_id G)) = None ->
   storage w !! key G = None ->
   exists k w1,
     k = <["alg" := alg_name (alg G)]> (generateKeyPair (alg G) (generated w)) /\
     run (getPrivateKey G) w = (Fulfilled (Some k), w1, []) /\
     generated w1 = S (generated w) /\
     storage w1 = <[key G := {| keys := [k] |}]> (storage w) /\
     privateJwk (gen_state w1 (gen_id G)) = Some k /\
     forall (G' : JwkGenerator) (w' : World),
       key G' = key G ->
       storage w' = storage w1 ->
       generators w' !! gen_id G' = None ->
       (exists w2,
          run (getPrivateKey G') w' = (Fulfilled (Some k), w2, []) /\
          generated w2 = generated w' /\ storage w2 = storage w') /\
       (exists w3,
          run (getPublicKey G') w' =
            (match exportPublicJwk (Some k) with
             | Fulfilled exported => Fulfilled (<["alg" := alg_name (alg G)]> exported)
             | Rejected e => Rejected e
             end, w3, []) /\
          generated w3 = generated w' /\ storage w3 = storage w' /\
          privateJwk (gen_state w3 (gen_id G')) = Some k) /\
       (publicJwk (gen_state w1 (gen_id G)) = None ->
        (run (getPublicKey G) w1).1.1 =
        match exportPublicJwk (Some k) with
        | Fulfilled exported => Fulfilled (<["alg" := alg_name (alg G)]> exported)
        | Rejected e => Rejected e
        end)).
Proof.
  split; [|split].
  - intros k Hcached. rewrite run_getPrivateKey, Hcached. reflexivity.
  - intros jwks Hcache Hstore. rewrite run_getPrivateKey, Hcache, Hstore.
    eexists. split; [reflexivity|]. repeat split.
    unfold gen_state, set_privateJwk. cbn [generators set_generators].
    rewrite lookup_insert_eq. reflexivity.
  - intros Hcache Hstore. rewrite run_getPrivateKey, Hcache, Hstore.
    set (k := fresh_key G (generated w)). set (w1 := after_generation G w).
    assert (Hcached : privateJwk (gen_state w1 (gen_id G)) = Some k).
    { unfold gen_state, w1, after_generation, set_privateJwk.
      cbn [generators set_generators]. rewrite lookup_insert_eq. reflexivity. }
    assert (Halg : forall exported, with_alg_of k exported = <["alg" := alg_name (alg G)]> exported).
    { intros exported. unfold with_alg_of, k, fresh_key.
      rewrite lookup_insert_eq. reflexivity. }
    exists k, w1.
    split; [reflexivity|]. split; [reflexivity|]. split; [reflexivity|].
    split; [reflexivity|]. split; [exact Hcached|].
    intros G' w' Hkey Hsame Hfresh.
    assert (Hstored : storage w' !! key G' = Some {| keys := [k] |}).
    { rewrite Hkey, Hsame. unfold w1, after_generation.
      cbn [storage set_privateJwk set_generators set_storage].
      apply lookup_insert_eq. }
    split; [|split].
    + rewrite run_getPrivateKey, (gen_state_fresh w' _ Hfresh). cbn [privateJwk new_gen].
      rewrite Hstored. eexists. split; [reflexivity|]. split; reflexivity.
    + rewrite run_getPublicKey, run_getPrivateKey.
      rewrite (gen_state_fresh w' _ Hfresh). cbn [privateJwk publicJwk new_gen].
      rewrite Hstored. cbn [keys lookup list_lookup].
      assert (Hkept : forall p,
                privateJwk (gen_state (set_publicJwk G' p (set_privateJwk G' (Some k) w'))
                              (gen_id G')) = Some k).
      { intros p. unfold set_publicJwk.
        unfold gen_state at 1. cbn [generators set_generators].
        rewrite lookup_insert_eq. cbn [default from_option id privateJwk].
        unfold gen_state, set_privateJwk. cbn [generators set_generators].
        rewrite lookup_insert_eq. reflexivity. }
      destruct (exportPublicJwk (Some k)) as [exported|e].
      * rewrite Halg. eexists. split; [reflexivity|].
        split; [reflexivity|]. split; [reflexivity|]. apply Hkept.
      * eexists. split; [reflexivity|]. split; [reflexivity|]. split; [reflexivity|].
        unfold gen_state, set_privateJwk. cbn [generators set_generators].
        rewrite lookup_insert_eq. reflexivity.
    + intros Hpub.
      rewrite run_getPublicKey, run_getPrivateKey, Hpub, Hcached.
      destruct (exportPublicJwk (Some k)) as [exported|e]; [|reflexivity].
      rewrite Halg. reflexivity.
Qed.

(** C8. Whenever [GET /.well-known/jwks.json] has been answered, the answer
    is a key set with one public JWK, whose [kid] is [TODO]; and every
    message that a call of [SignedFetcher.fetch] hands to the fetcher (it
    hands over one, or none when it fails before) carries, in its signature
    parameters, a [keyid] equal to that [kid]. *)
Theorem signature_keyid_is_published_kid
  (S : ResourceServer) (req : Req) (res : nat) (w0 w2 : World) (bg : list (Async unit))
  (F : SignedFetcher) (input : JsVal) (init : option RequestInit) (w : World) :
  run (getJWKSConfig S req res) w0 = (Fulfilled tt, w2, bg) ->
  exists (k : JWK) (emitted : list (JsVal * SignedRequest)),
    sent (res_of w2 res) = Some (Json {| keys := [k] |}) /\
    k !! "kid" = Some "TODO" /\
    outbox (run (SignedFetcher_fetch F input init) w).1.2 = (outbox w ++ emitted)%list /\
    (length emitted <= 1)%nat /\
    Forall (fun m => keyid (sr_signature_input m.2) = k !! "kid") emitted.
Proof.
  unfold getJWKSConfig. rewrite run_bind, run_await.
  destruct (run (getPublicKey (keyGen S)) w0) as [[[key|e] w1] bg1]; [|discriminate].
  cbn [run]. intros [= <- _].
  exists (<["kid" := "TODO"]> key).
  assert (Hemitted : exists emitted,
            outbox (run (SignedFetcher_fetch F input init) w).1.2 = (outbox w ++ emitted)%list /\
            (length emitted <= 1)%nat /\
            Forall (fun m => keyid (sr_signature_input m.2) = Some "TODO") emitted).
  { rewrite run_fetch.
    pose proof (getPrivateKey_frame (sf_keyGen F) w) as Hframe.
    destruct (run (getPrivateKey (sf_keyGen F)) w) as [[[[jwk|]|e] w3] bg3];
      simpl in Hframe; destruct Hframe as (_ & Hout & _).
    - repeat case_decide;
        try solve [exists []; rewrite app_nil_r; simpl; auto].
      destruct (subtle_sign _ _) as [signature|e].
      + exists [(input, signed_request F jwk input init signature)].
        cbn zeta. cbn [fst snd outbox set_outbox]. rewrite Hout.
        split; [reflexivity|]. split; [simpl; lia|].
        constructor; [reflexivity | constructor].
      + exists []. rewrite app_nil_r. simpl. auto.
    - exists []. rewrite app_nil_r. simpl. auto.
    - exists []. rewrite app_nil_r. simpl. auto. }
  destruct Hemitted as (emitted & Hout & Hlen & Hkeyid).
  exists emitted. rewrite res_of_res_send. cbn [sent].
  rewrite lookup_insert_eq. auto.
Qed.

(** C5 (what the code does). Two calls of [getPrivateKey] on a generator
    with no cached key and nothing in the store, the second made before the
    first has completed: each call finds the cache and the store empty,
    each generates a key pair of its own, and each returns its own key.
    Two generations have taken place. *)
Theorem getPrivateKey_concurrent_first_callers (G : JwkGenerator) (w : World) :
  privateJwk (gen_state w (gen_id G)) = None ->
  storage w !! key G = None ->
  let first := <["alg" := alg_name (alg G)]> (generateKeyPair (alg G) (generated w)) in
  let second := <["alg" := alg_name (alg G)]> (generateKeyPair (alg G) (S (generated w))) in
  exists w',
    interleave [0; 1; 0; 1; 0; 1; 0; 1; 0; 1]%nat [getPrivateKey G; getPrivateKey G] w =
      ([Resolve (Some first); Resolve (Some second)], w') /\
    generated w' = S (S (generated w)) /\
    storage w' !! key G = Some {| keys := [second] |} /\
    privateJwk (gen_state w' (gen_id G)) = Some second.
Proof.
  intros Hcache Hstore first second.
  eexists. split.
  - unfold getPrivateKey.
    cbn [interleave lookup list_lookup advance].
    rewrite Hcache, Hstore.
    cbn [interleave lookup list_lookup insert list_insert advance].
    rewrite Hcache, Hstore.
    cbn [interleave lookup list_lookup insert list_insert advance generated set_generated].
    reflexivity.
  - split; [reflexivity|]. split.
    + cbn [storage set_privateJwk set_generators set_storage]. apply lookup_insert_eq.
    + unfold gen_state at 1, set_privateJwk at 1. cbn [generators set_generators].
      rewrite lookup_insert_eq. reflexivity.
Qed.

(** ** More on [SignedFetcher.fetch] *)




Example Headers_entries_strips_values :
  Headers_entries [("X-Note", "  padded value  ")] = {[ "x-note" := "padded value" ]}.
Proof. vm_compute. reflexivity. Qed.

Example Headers_entries_joins_repeated_names :
  Headers_entries [("Accept", "text/plain"); ("accept", "application/json")] =
  {[ "accept" := "text/plain, application/json" ]}.
Proof. vm_compute. reflexivity. Qed.

Example Headers_entries_keeps_last_cookie :
  Headers_entries [("Set-Cookie", "a=1"); ("Set-Cookie", "b=2")] = {[ "set-cookie" := "b=2" ]}.
Proof. vm_compute. reflexivity. Qed.

Example Headers_entries_skips_proto :
  Headers_entries [("__proto__", "x"); ("Accept", "*/*")] = {[ "accept" := "*/*" ]}.
Proof. vm_compute. reflexivity. Qed.


(** X2. A generator configured for [EdDSA] or [ES256K], with nothing cached
    and nothing stored: [fetch] still generates a key pair and stores it,
    and then rejects with [<alg> signing is not supported] without handing
    anything to the fetcher. *)
Theorem fetch_unsupported_algorithm
  (F : SignedFetcher) (input : JsVal) (init : option RequestInit) (w : World) :
  alg (sf_keyGen F) = EdDSA \/ alg (sf_keyGen F) = ES256K ->
  privateJwk (gen_state w (gen_id (sf_keyGen F))) = None ->
  storage w !! key (sf_keyGen F) = None ->
  exists w1,
    run (SignedFetcher_fetch F input init) w =
      (Rejected (Error (alg_name (alg (sf_keyGen F)) +:+ " signing is not supported")),
       w1, []) /\
    outbox w1 = outbox w /\
    generated w1 = S (generated w) /\
    is_Some (storage w1 !! key (sf_keyGen F)).
Proof.
  intros Halg Hcache Hstore.
  rewrite run_fetch, run_getPrivateKey, Hcache, Hstore.
  unfold fresh_key. rewrite lookup_insert_eq.
  eexists. split.
  - destruct Halg as [-> | ->]; cbn [alg_name].
    + rewrite decide_True by reflexivity. reflexivity.
    + rewrite decide_False by discriminate. rewrite decide_True by reflexivity. reflexivity.
  - split; [reflexivity|]. split; [reflexivity|].
    unfold after_generation. cbn [storage set_privateJwk set_generators set_storage].
    rewrite lookup_insert_eq. eauto.
Qed.

(** X3. [fetch] hands nothing to the fetcher unless it has a key and the
    key has signed: when the store holds an empty key set under the storage
    key, [getPrivateKey] resolves to [undefined] without generating
    anything and [fetch] rejects with a TypeError; when signing throws,
    [fetch] rejects with what it threw. Either way the outbox is as it
    was. *)
Theorem fetch_without_usable_key
  (F : SignedFetcher) (input : JsVal) (init : option RequestInit) (w w0 : World)
  (bg : list (Async unit)) :
  (forall jwks,
     privateJwk (gen_state w (gen_id (sf_keyGen F))) = None ->
     storage w !! key (sf_keyGen F) = Some jwks ->
     keys jwks = [] ->
     exists w1,
       run (getPrivateKey (sf_keyGen F)) w = (Fulfilled None, w1, []) /\
       run (SignedFetcher_fetch F input init) w =
         (Rejected (TypeError "Cannot destructure property 'alg' of 'jwk' as it is undefined."),
          w1, []) /\
       outbox w1 = outbox w /\ generated w1 = generated w /\ storage w1 = storage w /\
       privateJwk (gen_state w1 (gen_id (sf_keyGen F))) = None) /\
  (forall jwk e,
     run (getPrivateKey (sf_keyGen F)) w = (Fulfilled (Some jwk), w0, bg) ->
     jwk !! "alg" <> Some "EdDSA" ->
     jwk !! "alg" <> Some "ES256K" ->
     subtle_sign (algMap (jwk !! "alg")) jwk = Rejected e ->
     run (SignedFetcher_fetch F input init) w = (Rejected e, w0, []) /\
     outbox w0 = outbox w).
Proof.
  split.
  - intros jwks Hcache Hstore Hempty.
    rewrite run_fetch, run_getPrivateKey, Hcache, Hstore, Hempty.
    cbn [lookup list_lookup]. eexists. repeat (split; [reflexivity|]).
    unfold gen_state, set_privateJwk. cbn [generators set_generators].
    rewrite lookup_insert_eq. reflexivity.
  - intros jwk e Hkey Hed Hes Hsign.
    pose proof (getPrivateKey_frame (sf_keyGen F) w) as Hframe.
    rewrite run_fetch, Hkey. rewrite Hkey in Hframe. simpl in Hframe.
    destruct Hframe as (_ & Hout & _).
    rewrite decide_False by exact Hed. rewrite decide_False by exact Hes.
    rewrite Hsign. auto.
Qed.

(** ** More on [JwkGenerator] *)

(** X4. Calls of [getPrivateKey] that follow one another: whatever the
    first call finds (a cached key, a stored key set, an empty stored key
    set, or nothing), every later call resolves to what the first one
    resolved to, generates nothing and leaves the store alone; over all the
    calls at most one key is generated. *)
Theorem getPrivateKey_successive_calls (G : JwkGenerator) (w : World) (n : nat) :
  let step := fun w => (run (getPrivateKey G) w).1.2 in
  let w1 := step w in
  let wn := Nat.iter n step w1 in
  (run (getPrivateKey G) wn).1.1 = (run (getPrivateKey G) w).1.1 /\
  generated wn = generated w1 /\
  storage wn = storage w1 /\
  (generated w1 <= S (generated w))%nat.
Proof.
  intros step w1 wn.
  set (r := (run (getPrivateKey G) w).1.1).
  assert (Hinv : forall v,
            (exists k, r = Fulfilled (Some k) /\
                       privateJwk (gen_state v (gen_id G)) = Some k) \/
            (r = Fulfilled None /\ privateJwk (gen_state v (gen_id G)) = None /\
             exists jwks, storage v !! key G = Some jwks /\ keys jwks !! 0%nat = None) ->
            (run (getPrivateKey G) v).1.1 = r /\
            generated (step v) = generated v /\ storage (step v) = storage v /\
            ((exists k, r = Fulfilled (Some k) /\
                        privateJwk (gen_state (step v) (gen_id G)) = Some k) \/
             (r = Fulfilled None /\ privateJwk (gen_state (step v) (gen_id G)) = None /\
              exists jwks, storage (step v) !! key G = Some jwks /\
                           keys jwks !! 0%nat = None))).
  { intros v [(k & Hr & Hcache) | (Hr & Hcache & jwks & Hstore & Hnone)];
      unfold step; rewrite run_getPrivateKey, Hcache.
    - cbn [fst snd]. rewrite Hr. repeat (split; [reflexivity|]). left. eauto.
    - rewrite Hstore, Hnone. cbn [fst snd]. rewrite Hr. repeat (split; [reflexivity|]).
      right. split; [reflexivity|]. split.
      + unfold gen_state, set_privateJwk. cbn [generators set_generators].
        rewrite lookup_insert_eq. reflexivity.
      + exists jwks. split; [exact Hstore | exact Hnone]. }
  assert (Hfirst :
            ((exists k, r = Fulfilled (Some k) /\
                        privateJwk (gen_state w1 (gen_id G)) = Some k) \/
             (r = Fulfilled None /\ privateJwk (gen_state w1 (gen_id G)) = None /\
              exists jwks, storage w1 !! key G = Some jwks /\ keys jwks !! 0%nat = None)) /\
            (generated w1 <= S (generated w))%nat).
  { unfold r, w1, step. rewrite run_getPrivateKey.
    destruct (privateJwk (gen_state w (gen_id G))) as [k|] eqn:Hcache.
    { cbn [fst snd]. split; [left; eauto | lia]. }
    destruct (storage w !! key G) as [jwks|] eqn:Hstore; cbn [fst snd].
    - split; [|cbn [generated set_privateJwk set_generators]; lia].
      assert (Hnew : privateJwk (gen_state (set_privateJwk G (keys jwks !! 0%nat) w) (gen_id G))
                     = keys jwks !! 0%nat).
      { unfold gen_state, set_privateJwk. cbn [generators set_generators].
        rewrite lookup_insert_eq. reflexivity. }
      destruct (keys jwks !! 0%nat) as [k|] eqn:Hk; [left; eauto|].
      right. split; [reflexivity|]. split; [exact Hnew|]. exists jwks. auto.
    - split; [|cbn; lia]. left. exists (fresh_key G (generated w)).
      split; [reflexivity|].
      unfold gen_state, after_generation, set_privateJwk. cbn [generators set_generators].
      rewrite lookup_insert_eq. reflexivity. }
  destruct Hfirst as [Hstate Hbound].
  assert (Hiter : generated wn = generated w1 /\ storage wn = storage w1 /\
            ((exists k, r = Fulfilled (Some k) /\
                        privateJwk (gen_state wn (gen_id G)) = Some k) \/
             (r = Fulfilled None /\ privateJwk (gen_state wn (gen_id G)) = None /\
              exists jwks, storage wn !! key G = Some jwks /\ keys jwks !! 0%nat = None))).
  { unfold wn. clear wn. induction n as [|n IH];
      [cbn [Nat.iter]; split; [reflexivity|]; split; [reflexivity | exact Hstate]|].
    rewrite Nat.iter_succ.
    destruct IH as (Hg & Hs & Hcase).
    destruct (Hinv _ Hcase) as (_ & Hg' & Hs' & Hcase').
    split; [rewrite Hg'; exact Hg|]. split; [rewrite Hs'; exact Hs | exact Hcase']. }
  destruct Hiter as (Hg & Hs & Hcase).
  destruct (Hinv _ Hcase) as (Hr & _).
  split; [exact Hr|]. split; [exact Hg|]. split; [exact Hs | exact Hbound].
Qed.

(** What a run of [getPublicKey] leaves alone. *)
Lemma getPublicKey_frame (G : JwkGenerator) (w : World) :
  let '(_, w1, _) := run (getPublicKey G) w in
  resources w1 = resources w /\ outbox w1 = outbox w /\ responses w1 = responses w /\
  storage w1 = storage (run (getPrivateKey G) w).1.2 \/
  resources w1 = resources w /\ outbox w1 = outbox w /\ responses w1 = responses w /\
  storage w1 = storage w.
Proof.
  rewrite run_getPublicKey.
  destruct (publicJwk (gen_state w (gen_id G))); [right; done|].
  pose proof (getPrivateKey_frame G w) as Hframe.
  destruct (run (getPrivateKey G) w) as [[[priv|e] w1] bg]; simpl in Hframe;
    destruct Hframe as (Hres & Hout & Hresp); [|left; done].
  destruct (exportPublicJwk priv); [|left; done].
  destruct priv; left; done.
Qed.

(** X5. The store never receives the public key: after [getPublicKey],
    whatever it settles to, an entry of the store is either an entry that
    was there before or the key set with the private key that the call
    generated, under the storage key. *)
Theorem getPublicKey_stores_private_key_only
  (G : JwkGenerator) (w : World) (name : string) (jwks : JWKS) :
  storage (run (getPublicKey G) w).1.2 !! name = Some jwks ->
  storage w !! name = Some jwks \/
  (name = key G /\
   jwks = {| keys := [<["alg" := alg_name (alg G)]> (generateKeyPair (alg G) (generated w))] |} /\
   storage w !! key G = None).
Proof.
  pose proof (getPublicKey_frame G w) as Hframe.
  destruct (run (getPublicKey G) w) as [[r w1] bg]. cbn [fst snd].
  destruct Hframe as [(_ & _ & _ & ->) | (_ & _ & _ & ->)]; [|auto].
  rewrite run_getPrivateKey.
  destruct (privateJwk (gen_state w (gen_id G))); [auto|].
  destruct (storage w !! key G) eqn:Hstore; [auto|].
  cbn [fst snd after_generation storage set_privateJwk set_generators set_storage
       set_generated].
  destruct (decide (key G = name)) as [<-|Hne].
  - rewrite lookup_insert_eq. intros [= <-]. right. auto.
  - rewrite lookup_insert_ne by exact Hne. auto.
Qed.

(** X6. When [getPublicKey] resolves, the key it returns is cached: a
    second call returns the same key and changes nothing. When the key was
    not cached before, it is the exported public half of the private key
    now cached, with the [alg] of that private key. *)
Theorem getPublicKey_derived_and_cached
  (G : JwkGenerator) (w w1 : World) (pub : JWK) (bg : list (Async unit)) :
  run (getPublicKey G) w = (Fulfilled pub, w1, bg) ->
  publicJwk (gen_state w1 (gen_id G)) = Some pub /\
  run (getPublicKey G) w1 = (Fulfilled pub, w1, []) /\
  (publicJwk (gen_state w (gen_id G)) = None ->
   exists priv exported,
     privateJwk (gen_state w1 (gen_id G)) = Some priv /\
     exportPublicJwk (Some priv) = Fulfilled exported /\
     pub !! "alg" = priv !! "alg" /\
     forall member, member <> "alg" -> pub !! member = exported !! member).
Proof.
  intros Hrun.
  assert (Hcached : publicJwk (gen_state w1 (gen_id G)) = Some pub /\
            (publicJwk (gen_state w (gen_id G)) = None ->
             exists priv exported,
               privateJwk (gen_state w1 (gen_id G)) = Some priv /\
               exportPublicJwk (Some priv) = Fulfilled exported /\
               pub !! "alg" = priv !! "alg" /\
               forall member, member <> "alg" -> pub !! member = exported !! member)).
  { rewrite run_getPublicKey in Hrun.
    destruct (publicJwk (gen_state w (gen_id G))) as [k|] eqn:Hpub.
    { injection Hrun as <- <- _. split; [exact Hpub | discriminate]. }
    assert (Hpriv : forall p w0 b,
              run (getPrivateKey G) w = (Fulfilled (Some p), w0, b) ->
              privateJwk (gen_state w0 (gen_id G)) = Some p).
    { intros p w0 b. rewrite run_getPrivateKey.
      destruct (privateJwk (gen_state w (gen_id G))) as [k|] eqn:Hc.
      { intros [= <- <- _]. exact Hc. }
      destruct (storage w !! key G) as [jwks|].
      - intros [= Hk <- _]. unfold gen_state, set_privateJwk.
        cbn [generators set_generators]. rewrite lookup_insert_eq. exact Hk.
      - intros [= <- <- _]. unfold gen_state, after_generation, set_privateJwk.
        cbn [generators set_generators]. rewrite lookup_insert_eq. reflexivity. }
    destruct (run (getPrivateKey G) w) as [[[priv|e] w0] b]; [|discriminate].
    destruct (exportPublicJwk priv) as [exported|e] eqn:Hexp; [|discriminate].
    destruct priv as [priv|]; [|discriminate].
    injection Hrun as <- <- _.
    specialize (Hpriv priv w0 b eq_refl).
    split.
    - unfold gen_state, set_publicJwk. cbn [generators set_generators].
      rewrite lookup_insert_eq. reflexivity.
    - intros _. exists priv, exported. split.
      + unfold gen_state at 1, set_publicJwk. cbn [generators set_generators].
        rewrite lookup_insert_eq. exact Hpriv.
      + split; [exact Hexp|]. unfold with_alg_of.
        destruct (priv !! "alg") as [a|]; split.
        * apply lookup_insert_eq.
        * intros member Hne. apply lookup_insert_ne. congruence.
        * apply lookup_delete_eq.
        * intros member Hne. apply lookup_delete_ne. congruence. }
  destruct Hcached as [Hpub Hderived]. split; [exact Hpub|]. split; [|exact Hderived].
  rewrite run_getPublicKey, Hpub. reflexivity.
Qed.

(** After a call of [getPrivateKey] that returned a key, the generator
    caches that key; its cached public key is as before. *)
Lemma getPrivateKey_caches (G : JwkGenerator) (w w0 : World) (priv : JWK)
  (bg : list (Async unit)) :
  run (getPrivateKey G) w = (Fulfilled (Some priv), w0, bg) ->
  privateJwk (gen_state w0 (gen_id G)) = Some priv /\
  publicJwk (gen_state w0 (gen_id G)) = publicJwk (gen_state w (gen_id G)).
Proof.
  rewrite run_getPrivateKey.
  destruct (privateJwk (gen_state w (gen_id G))) as [k|] eqn:Hc.
  { intros [= <- <- _]. auto. }
  destruct (storage w !! key G) as [jwks|].
  - intros [= Hk <- _]. unfold gen_state at 1 2, set_privateJwk.
    cbn [generators set_generators]. rewrite lookup_insert_eq. auto.
  - intros [= <- <- _]. unfold gen_state at 1 2, after_generation, set_privateJwk.
    cbn [generators set_generators]. rewrite lookup_insert_eq. auto.
Qed.

(** ** More on [getJWKSConfig] *)

(** X7. When [getJWKSConfig] has answered, the key it published is the
    object the generator caches, [kid] included: [getPublicKey] now returns
    the key with [kid: TODO], and every later call of [getJWKSConfig]
    publishes the same key set. *)
Theorem getJWKSConfig_publishes_cached_key
  (S : ResourceServer) (req : Req) (res : nat) (w w1 : World) (bg : list (Async unit)) :
  run (getJWKSConfig S req res) w = (Fulfilled tt, w1, bg) ->
  exists k,
    sent (res_of w1 res) = Some (Json {| keys := [k] |}) /\
    k !! "kid" = Some "TODO" /\
    run (getPublicKey (keyGen S)) w1 = (Fulfilled k, w1, []) /\
    forall (req' : Req) (res' : nat),
      exists w2,
        run (getJWKSConfig S req' res') w1 = (Fulfilled tt, w2, []) /\
        sent (res_of w2 res') = Some (Json {| keys := [k] |}) /\
        storage w2 = storage w1 /\ generated w2 = generated w1.
Proof.
  unfold getJWKSConfig at 1. rewrite run_bind, run_await.
  destruct (run (getPublicKey (keyGen S)) w) as [[[key0|e] w0] bg0]; [|discriminate].
  cbn [run]. intros [= <- _].
  set (k := <["kid" := "TODO"]> key0).
  assert (Hcached : publicJwk (gen_state
                       (res_send res (Json {| keys := [k] |})
                          (set_publicJwk (keyGen S) (Some k) w0)) (gen_id (keyGen S)))
                    = Some k).
  { unfold gen_state, set_publicJwk, res_send.
    cbn [generators set_generators set_responses]. rewrite lookup_insert_eq. reflexivity. }
  assert (Hagain : run (getPublicKey (keyGen S))
                     (res_send res (Json {| keys := [k] |})
                        (set_publicJwk (keyGen S) (Some k) w0)) =
                   (Fulfilled k,
                    res_send res (Json {| keys := [k] |})
                      (set_publicJwk (keyGen S) (Some k) w0), [])).
  { rewrite run_getPublicKey, Hcached. reflexivity. }
  exists k. split; [rewrite res_of_res_send; reflexivity|].
  split; [apply lookup_insert_eq|]. split; [exact Hagain|].
  intros req' res'. unfold getJWKSConfig. rewrite run_bind, run_await, Hagain.
  cbn [run app]. eexists. split; [reflexivity|].
  split; [|split; reflexivity].
  rewrite res_of_res_send. cbn [sent]. unfold k. rewrite insert_insert_eq. reflexivity.
Qed.

(** X8. [getJWKSConfig] answers only if [getPublicKey] resolves: when it
    rejects (the key set in the store is empty, or the public key cannot
    be derived), the handler rejects with the same error and writes to no
    response object. *)
Theorem getJWKSConfig_rejects_without_key
  (S : ResourceServer) (req : Req) (res : nat) (w w1 : World) (e : JsError)
  (bg : list (Async unit)) :
  run (getPublicKey (keyGen S)) w = (Rejected e, w1, bg) ->
  run (getJWKSConfig S req res) w = (Rejected e, w1, bg) /\
  responses w1 = responses w /\ resources w1 = resources w /\ outbox w1 = outbox w.
Proof.
  intros Hrun. unfold getJWKSConfig. rewrite run_bind, run_await, Hrun.
  split; [reflexivity|].
  pose proof (getPublicKey_frame (keyGen S) w) as Hframe. rewrite Hrun in Hframe.
  destruct Hframe as [(-> & -> & -> & _) | (-> & -> & -> & _)]; auto.
Qed.

(** ** More on [getResource] *)

(** Whatever a call of [fetch] settles to, it has handed the fetcher at
    most one message, the signed form of its arguments. *)
Lemma fetch_outbox (F : SignedFetcher) (input : JsVal) (init : option RequestInit)
  (w : World) :
  exists emitted,
    outbox (run (SignedFetcher_fetch F input init) w).1.2 = (outbox w ++ emitted)%list /\
    (length emitted <= 1)%nat /\
    Forall (fun m => exists jwk signature,
                       m = (input, signed_request F jwk input init signature)) emitted.
Proof.
  rewrite run_fetch.
  pose proof (getPrivateKey_frame (sf_keyGen F) w) as Hframe.
  destruct (run (getPrivateKey (sf_keyGen F)) w) as [[[[jwk|]|e] w3] bg3];
    simpl in Hframe; destruct Hframe as (_ & Hout & _);
    try solve [exists []; rewrite app_nil_r; simpl; auto].
  repeat case_decide; try solve [exists []; rewrite app_nil_r; simpl; auto].
  destruct (subtle_sign _ _) as [signature|e];
    [|exists []; rewrite app_nil_r; simpl; auto].
  exists [(input, signed_request F jwk input init signature)].
  cbn zeta. cbn [fst snd outbox set_outbox]. rewrite Hout.
  split; [reflexivity|]. split; [simpl; lia|].
  constructor; [eauto | constructor].
Qed.

(** The branch of [getResource] for a request without a token, in terms
    of what the ticket request settles to. *)
Lemma run_getResource_no_token (S : ResourceServer) (req : Req) (res : nat) (w : World)
  (cfg : JsVal) :
  truthy_string (req_authorization req) = false ->
  authServerUmaConfig S = Fulfilled cfg ->
  run (getResource S req res) w =
  match get cfg "permission_endpoint" with
  | Rejected e => (Rejected e, w, [])
  | Fulfilled endpoint =>
      match run (SignedFetcher_fetch (fetcher S) endpoint
                   (Some (ticket_init (baseUrl S +:+ trim (req_url req))))) w with
      | (Fulfilled resp, w1, _) =>
          match json resp with
          | Fulfilled body =>
              match get body "ticket" with
              | Fulfilled ticket =>
                  (Fulfilled tt,
                   res_send res (Text "401 Unauthenticated")
                     (res_set_statusCode res 401
                        (res_setHeader res "WWW-Authenticate"
                           (umaAuthHeader (authServer S) ticket) w1)),
                   [])
              | Rejected e => (Rejected e, w1, [])
              end
          | Rejected e => (Rejected e, w1, [])
          end
      | (Rejected e, w1, _) => (Rejected e, w1, [])
      end
  end.
Proof.
  intros Hauth Hcfg. unfold getResource.
  rewrite run_bind, run_await_settled, Hcfg, Hauth, run_bind, run_settle.
  destruct (get cfg "permission_endpoint") as [endpoint|e]; [|reflexivity].
  rewrite run_bind, run_await.
  pose proof (fetch_frame (fetcher S) endpoint
                (Some (ticket_init (baseUrl S +:+ trim (req_url req)))) w) as Hframe.
  destruct (run (SignedFetcher_fetch _ _ _) w) as [[[resp|e] w1] bg];
    destruct Hframe as (_ & _ & ->); [|reflexivity].
  rewrite run_bind, run_await_settled.
  destruct (json resp) as [body|e]; [|reflexivity].
  rewrite run_bind, run_settle.
  destruct (get body "ticket") as [ticket|e]; reflexivity.
Qed.

(** X9. A GET request without a token when the ticket cannot be obtained:
    if the signed call to the permission endpoint rejects, or its answer is
    not JSON, or the JSON is [null], [getResource] rejects with that very
    error (it is not wrapped) and writes to no response object: the client
    gets no 401. *)
Theorem getResource_ticket_failure
  (S : ResourceServer) (req : Req) (res : nat) (w w1 : World)
  (cfg endpoint : JsVal) (e : JsError) (bg : list (Async unit)) :
  let ticket_request :=
    SignedFetcher_fetch (fetcher S) endpoint
      (Some (ticket_init (baseUrl S +:+ trim (req_url req)))) in
  truthy_string (req_authorization req) = false ->
  authServerUmaConfig S = Fulfilled cfg ->
  get cfg "permission_endpoint" = Fulfilled endpoint ->
  (run ticket_request w = (Rejected e, w1, bg) \/
   exists resp,
     run ticket_request w = (Fulfilled resp, w1, bg) /\
     (json resp = Rejected e \/
      exists body, json resp = Fulfilled body /\ get body "ticket" = Rejected e)) ->
  run (getResource S req res) w = (Rejected e, w1, []) /\
  responses w1 = responses w /\ resources w1 = resources w.
Proof.
  intros ticket_request Hauth Hcfg Hep Hfail.
  rewrite (run_getResource_no_token S req res w cfg Hauth Hcfg), Hep.
  pose proof (fetch_frame (fetcher S) endpoint
                (Some (ticket_init (baseUrl S +:+ trim (req_url req)))) w) as Hframe.
  fold ticket_request in Hframe |- *.
  destruct Hfail as [Hrun | (resp & Hrun & [Hjson | (body & Hjson & Hticket)])];
    rewrite Hrun in Hframe |- *; destruct Hframe as (Hres & Hresp & _).
  - auto.
  - rewrite Hjson. auto.
  - rewrite Hjson, Hticket. auto.
Qed.

(** X10. A GET request without a token when the AS answers with a JSON
    object that has no [ticket]: the handler still answers 401, and the
    challenge carries the text [undefined] as its ticket. *)
Theorem getResource_challenge_without_ticket
  (S : ResourceServer) (req : Req) (res : nat) (w w1 : World)
  (cfg endpoint : JsVal) (fields : list (string * JsVal))
  (resp : HttpResponse) (bg : list (Async unit)) :
  truthy_string (req_authorization req) = false ->
  authServerUmaConfig S = Fulfilled cfg ->
  get cfg "permission_endpoint" = Fulfilled endpoint ->
  run (SignedFetcher_fetch (fetcher S) endpoint
         (Some (ticket_init (baseUrl S +:+ trim (req_url req))))) w
    = (Fulfilled resp, w1, bg) ->
  json resp = Fulfilled (JObj fields) ->
  assoc "ticket" fields = None ->
  responses w !! res = None ->
  exists w2,
    run (getResource S req res) w = (Fulfilled tt, w2, []) /\
    res_of w2 res =
      {| statusCode := 401;
         res_headers :=
           [("WWW-Authenticate",
             "UMA realm=" +:+ dquote +:+ "solid" +:+ dquote +:+
             ",as_uri=" +:+ dquote +:+ authServer S +:+ dquote +:+
             ",ticket=" +:+ dquote +:+ "undefined" +:+ dquote)];
         sent := Some (Text "401 Unauthenticated") |}.
Proof.
  intros Hauth Hcfg Hep Hfetch Hjson Hticket Hfresh.
  rewrite (run_getResource_no_token S req res w cfg Hauth Hcfg), Hep, Hfetch, Hjson.
  cbn [get]. rewrite Hticket. cbn [default from_option id].
  apply fetch_fulfilled in Hfetch as (_ & _ & _ & _ & _ & Hresp & _).
  eexists. split; [reflexivity|].
  rewrite res_of_res_send, res_of_res_set_statusCode, res_of_res_setHeader.
  rewrite res_of_fresh by (rewrite Hresp; exact Hfresh). reflexivity.
Qed.

(** X11. When the metadata request of the constructor failed, every GET,
    with or without a token, rejects with that error and changes nothing.
    A POST is answered all the same; the registration it leaves behind
    rejects with that error, unobserved, without handing anything to the
    fetcher. *)
Theorem handlers_without_metadata
  (S : ResourceServer) (e : JsError) (req : Req) (res : nat) (w : World) :
  authServerUmaConfig S = Rejected e ->
  run (getResource S req res) w = (Rejected e, w, []) /\
  exists w1 bg,
    run (postResource S req res) w = (Fulfilled tt, w1, bg) /\
    is_Some (sent (res_of w1 res)) /\
    forall task, task ∈ bg -> run task w1 = (Rejected e, w1, []).
Proof.
  intros Hcfg. split.
  - unfold getResource. rewrite run_bind, run_await_settled, Hcfg. reflexivity.
  - destruct (run_postResource S req res w) as (task & Htask & ->).
    destruct (truthy_string (resources w !! _)).
    + eexists. exists []. split; [reflexivity|].
      split; [rewrite res_of_res_send; eauto|].
      intros t Ht. apply elem_of_nil in Ht. destruct Ht.
    + cbn zeta. eexists. exists [task]. split; [reflexivity|].
      split; [rewrite res_of_res_send; eauto|].
      intros t Ht. apply list_elem_of_singleton in Ht as ->.
      rewrite Htask. unfold registerResourceToAS.
      rewrite run_bind, run_await_settled, Hcfg. reflexivity.
Qed.

(** X12. Reading never changes the store: whatever [getResource] or
    [getJWKSConfig] settle to, the resources are as they were. *)
Theorem reading_leaves_store_unchanged
  (S : ResourceServer) (req : Req) (res : nat) (w : World) :
  resources (run (getResource S req res) w).1.2 = resources w /\
  resources (run (getJWKSConfig S req res) w).1.2 = resources w.
Proof.
  split.
  - destruct (authServerUmaConfig S) as [cfg|e] eqn:Hcfg.
    2:{ unfold getResource. rewrite run_bind, run_await_settled, Hcfg. reflexivity. }
    destruct (truthy_string (req_authorization req)) eqn:Hauth.
    + destruct (split (default "" (req_authorization req)) "Bearer" !! 1%nat)
        as [piece|] eqn:Hsplit.
      2:{ unfold getResource. rewrite run_bind, run_await_settled, Hcfg, Hauth, Hsplit.
          reflexivity. }
      destruct (get cfg "introspection_endpoint") as [endpoint|e] eqn:Hep.
      2:{ unfold getResource. rewrite run_bind, run_await_settled, Hcfg, Hauth, Hsplit.
          rewrite run_bind, run_settle, run_bind, Hep, run_settle. reflexivity. }
      rewrite (run_getResource_bearer S req res w cfg endpoint piece Hauth Hcfg Hsplit Hep).
      pose proof (fetch_frame (fetcher S) endpoint
                    (Some (introspection_init (trim piece))) w) as Hframe.
      destruct (run (SignedFetcher_fetch _ _ _) w) as [[[resp|e] w1] bg];
        destruct Hframe as (Hres & _ & _); [|exact Hres].
      destruct (json resp) as [body|e]; [|exact Hres].
      destruct (get body "active") as [active|e]; [|exact Hres].
      destruct (truthy active); exact Hres.
    + rewrite (run_getResource_no_token S req res w cfg Hauth Hcfg).
      destruct (get cfg "permission_endpoint") as [endpoint|e]; [|reflexivity].
      pose proof (fetch_frame (fetcher S) endpoint
                    (Some (ticket_init (baseUrl S +:+ trim (req_url req)))) w) as Hframe.
      destruct (run (SignedFetcher_fetch _ _ _) w) as [[[resp|e] w1] bg];
        destruct Hframe as (Hres & _ & _); [|exact Hres].
      destruct (json resp) as [body|e]; [|exact Hres].
      destruct (get body "ticket") as [ticket|e]; exact Hres.
  - unfold getJWKSConfig. rewrite run_bind, run_await.
    pose proof (getPublicKey_frame (keyGen S) w) as Hframe.
    destruct (run (getPublicKey (keyGen S)) w) as [[[key0|e] w1] bg];
      destruct Hframe as [(Hres & _) | (Hres & _)]; exact Hres.
Qed.

(** The token of a header that begins with [Bearer]. *)
Lemma split_Bearer_prefix (t : string) :
  (forall pre post, t <> pre +:+ "Bearer" +:+ post) ->
  split ("Bearer" +:+ t) "Bearer" = [""; t].
Proof.
  intros Hnot. unfold split.
  change (split_from "Bearer" 0 "" ("Bearer" +:+ t))
    with ("" :: split_from "Bearer" 0 "" t).
  rewrite split_from_not_included; [reflexivity|].
  destruct (includes t "Bearer") eqn:E; [|reflexivity].
  apply includes_correct in E as (pre & post & ->). exfalso. exact (Hnot pre post eq_refl).
Qed.

(** X13. The introspection request. For a header [Bearer<t>], where [t]
    does not contain [Bearer] again, the only message [getResource] may
    hand to the fetcher goes to the introspection endpoint as a POST with
    the form body [token_type_hint=access_token&token=] followed by [t]
    trimmed and otherwise as it came (it is not URL-encoded), a form
    content type and a JSON accept header. *)
Theorem getResource_introspection_request
  (S : ResourceServer) (req : Req) (res : nat) (w : World)
  (t : string) (cfg endpoint : JsVal) :
  req_authorization req = Some ("Bearer" +:+ t) ->
  (forall pre post, t <> pre +:+ "Bearer" +:+ post) ->
  authServerUmaConfig S = Fulfilled cfg ->
  get cfg "introspection_endpoint" = Fulfilled endpoint ->
  exists emitted,
    outbox (run (getResource S req res) w).1.2 = (outbox w ++ emitted)%list /\
    (length emitted <= 1)%nat /\
    Forall (fun m =>
              m.1 = endpoint /\
              sr_method m.2 = "POST" /\
              sr_body m.2 = Some ("token_type_hint=access_token&token=" +:+ trim t) /\
              sr_headers m.2 !! "content-type" = Some "application/x-www-form-urlencoded" /\
              sr_headers m.2 !! "accept" = Some "application/json") emitted.
Proof.
  intros Hauth Hnot Hcfg Hep.
  assert (Hsplit : split (default "" (req_authorization req)) "Bearer" !! 1%nat = Some t).
  { rewrite Hauth. cbn [default from_option id]. rewrite (split_Bearer_prefix t Hnot).
    reflexivity. }
  assert (Htruthy : truthy_string (req_authorization req) = true)
    by (rewrite Hauth; reflexivity).
  rewrite (run_getResource_bearer S req res w cfg endpoint t Htruthy Hcfg Hsplit Hep).
  destruct (fetch_outbox (fetcher S) endpoint (Some (introspection_init (trim t))) w)
    as (emitted & Hout & Hlen & Hall).
  exists emitted. split; [|split; [exact Hlen|]].
  - destruct (run (SignedFetcher_fetch _ _ _) w) as [[[resp|e] w1] bg];
      cbn [fst snd] in Hout; [|exact Hout].
    destruct (json resp) as [body|e]; [|exact Hout].
    destruct (get body "active") as [active|e]; [|exact Hout].
    destruct (truthy active); exact Hout.
  - eapply Forall_impl; [exact Hall|].
    intros m (jwk & signature & ->). cbn [fst snd signed_request sr_method sr_body sr_headers].
    repeat split; rewrite lookup_insert_ne by discriminate; vm_compute; reflexivity.
Qed.

(** ** More on [postResource] *)

(** X14. A POST never removes or replaces stored content and never touches
    another URI than its own; it stores no empty content, and it hands
    nothing to the fetcher itself (registration is left behind). *)
Theorem postResource_keeps_entries
  (S : ResourceServer) (req : Req) (res : nat) (w : World) :
  let w1 := (run (postResource S req res) w).1.2 in
  (forall uri content,
     resources w !! uri = Some content -> content <> "" ->
     resources w1 !! uri = Some content) /\
  (forall uri,
     uri <> baseUrl S +:+ trim (req_url req) -> resources w1 !! uri = resources w !! uri) /\
  ((forall uri, resources w !! uri <> Some "") ->
   forall uri, resources w1 !! uri <> Some "") /\
  outbox w1 = outbox w.
Proof.
  intros w1. unfold w1. clear w1.
  destruct (run_postResource S req res w) as (task & _ & ->).
  set (resourceURI := baseUrl S +:+ trim (req_url req)).
  destruct (truthy_string (resources w !! resourceURI)) eqn:Hknown;
    [cbn [fst snd resources res_send set_responses]; auto|].
  cbn zeta. cbn [fst snd].
  destruct (req_body req) as [body|] eqn:Hbody;
    [|cbn [truthy_string resources res_send res_set_statusCode set_responses]; auto].
  cbn [truthy_string]. destruct (bool_decide (body = "")) eqn:Hempty;
    cbn [negb resources res_send res_set_statusCode set_responses set_resources
         outbox default from_option id]; [auto|].
  apply bool_decide_eq_false in Hempty.
  repeat split.
  - intros uri content Hstored Hne.
    destruct (decide (resourceURI = uri)) as [<-|Hother];
      [|rewrite lookup_insert_ne by exact Hother; exact Hstored].
    rewrite Hstored in Hknown. rewrite (truthy_string_Some content Hne) in Hknown.
    discriminate.
  - intros uri Hother. apply lookup_insert_ne. congruence.
  - intros Hinv uri.
    destruct (decide (resourceURI = uri)) as [<-|Hother].
    + rewrite lookup_insert_eq. congruence.
    + rewrite lookup_insert_ne by exact Hother. apply Hinv.
Qed.

(** [postResource] has no suspension point: its first turn is the whole
    call. *)
Lemma advance_postResource (S : ResourceServer) (req : Req) (res : nat) (w : World) :
  advance (postResource S req res) w =
  (Resolve tt, (run (postResource S req res) w).1.2, (run (postResource S req res) w).2).
Proof.
  unfold postResource. cbn [advance run].
  destruct (truthy_string (resources w !! _)); [reflexivity|].
  destruct (truthy_string (req_body req)); cbn [advance run];
    destruct (advance (registerResourceToAS S _) _) as [[c' w1] bg1]; reflexivity.
Qed.

(** X15. Two POSTs to the same URI, not in the store yet, taking turns in
    any order in which the first one is scheduled first: the check and the
    write of a POST happen in one turn, so the first stores its content and
    the second, whenever it runs, leaves the store as it is. *)
Theorem postResource_first_writer_wins
  (S : ResourceServer) (first second : Req) (res1 res2 : nat) (w : World)
  (content : string) (rest : list nat) :
  let resourceURI := baseUrl S +:+ trim (req_url first) in
  req_url second = req_url first ->
  truthy_string (resources w !! resourceURI) = false ->
  req_body first = Some content ->
  content <> "" ->
  let '(tasks, w') :=
    interleave (0%nat :: rest) [postResource S first res1; postResource S second res2] w in
  resources w' = <[resourceURI := content]> (resources w) /\
  tasks !! 0%nat = Some (Resolve tt).
Proof.
  intros resourceURI Hurl Hfresh Hbody Hne.
  cbn [interleave lookup list_lookup]. rewrite advance_postResource.
  cbn [insert list_insert].
  pose proof (postResource_stores S first res1 w content Hfresh Hbody Hne) as Hstored.
  fold resourceURI in Hstored.
  set (w1 := (run (postResource S first res1) w).1.2) in *.
  rewrite <- Hstored.
  assert (Hknown : truthy_string (resources w1 !! resourceURI) = true).
  { rewrite Hstored, lookup_insert_eq. exact (truthy_string_Some content Hne). }
  clearbody w1. clear Hstored Hfresh.
  assert (Hgen : forall turns tb v,
            tb = postResource S second res2 \/ tb = Resolve tt ->
            resources v = resources w1 ->
            let '(tasks, w') := interleave turns [Resolve tt; tb] v in
            resources w' = resources w1 /\ tasks !! 0%nat = Some (Resolve tt)).
  { induction turns as [|i turns IH]; intros tb v Htb Hv; cbn [interleave]; [auto|].
    destruct i as [|[|i]]; cbn [lookup list_lookup].
    - cbn [advance insert list_insert]. apply IH; assumption.
    - destruct Htb as [-> | ->].
      + rewrite advance_postResource. cbn [insert list_insert].
        apply IH; [right; reflexivity|].
        destruct (run_postResource S second res2 v) as (task & _ & ->).
        rewrite Hurl. fold resourceURI. rewrite Hv, Hknown. exact Hv.
      + cbn [advance insert list_insert]. apply IH; [right; reflexivity | exact Hv].
    - apply IH; assumption. }
  apply Hgen; [left; reflexivity | reflexivity].
Qed.

(** ** Signing key and published key *)

(** X16. Every algorithm of [AsymmetricSigningAlgorithm] that passes the
    two guards of [fetch] has an entry in [algMap]. So the first [fetch] of
    a generator for such an algorithm, with nothing cached or stored,
    generates a key, signs with the parameters of that entry, and, when
    signing succeeds, hands the fetcher a message whose [alg] parameter is
    the configured algorithm. *)
Theorem fetch_first_key_has_parameters
  (F : SignedFetcher) (input : JsVal) (init : option RequestInit) (w : World) :
  let G := sf_keyGen F in
  let k := <["alg" := alg_name (alg G)]> (generateKeyPair (alg G) (generated w)) in
  alg G <> EdDSA ->
  alg G <> ES256K ->
  privateJwk (gen_state w (gen_id G)) = None ->
  storage w !! key G = None ->
  exists params,
    algMap (Some (alg_name (alg G))) = Some params /\
    forall signature,
      subtle_sign (Some params) k = Fulfilled signature ->
      exists signed w1,
        run (SignedFetcher_fetch F input init) w = (network (outbox w) input signed, w1, []) /\
        outbox w1 = (outbox w ++ [(input, signed)])%list /\
        sig_alg (sr_signature_input signed) = Some (alg_name (alg G)) /\
        sr_signature signed = signature /\
        generated w1 = S (generated w).
Proof.
  intros G k Hed Hes Hcache Hstore.
  assert (Hparams : exists params, algMap (Some (alg_name (alg G))) = Some params).
  { destruct (alg G); try congruence; vm_compute; eauto. }
  destruct Hparams as (params & Hparams). exists params. split; [exact Hparams|].
  intros signature Hsign.
  rewrite run_fetch, run_getPrivateKey. fold G. rewrite Hcache, Hstore.
  unfold fresh_key. fold k.
  assert (Halg : k !! "alg" = Some (alg_name (alg G))) by apply lookup_insert_eq.
  rewrite Halg.
  rewrite decide_False by (intros [= H]; destruct (alg G); discriminate || congruence).
  rewrite decide_False by (intros [= H]; destruct (alg G); discriminate || congruence).
  rewrite Hparams, Hsign. cbn zeta.
  eexists. eexists. split; [reflexivity|].
  cbn [outbox set_outbox after_generation set_privateJwk set_generators set_storage
       set_generated generated signed_request sr_signature_input sig_alg sr_signature].
  rewrite Halg. auto.
Qed.

(** X17. On a server whose fetcher and JWKS endpoint share one generator,
    as the constructor wires them, the key set published after a signed
    call holds the public half of the very key that call signed with: the
    exported public key of that private key, with its [alg] and
    [kid: TODO]; publishing generates nothing. *)
Theorem published_key_is_signing_key
  (S : ResourceServer) (input : JsVal) (init : option RequestInit)
  (req : Req) (res : nat) (w w0 : World) (jwk exported : JWK) (bg : list (Async unit)) :
  sf_keyGen (fetcher S) = keyGen S ->
  run (getPrivateKey (keyGen S)) w = (Fulfilled (Some jwk), w0, bg) ->
  publicJwk (gen_state w (gen_id (keyGen S))) = None ->
  exportPublicJwk (Some jwk) = Fulfilled exported ->
  let w1 := (run (SignedFetcher_fetch (fetcher S) input init) w).1.2 in
  exists w2,
    run (getJWKSConfig S req res) w1 = (Fulfilled tt, w2, []) /\
    sent (res_of w2 res) =
      Some (Json {| keys := [<["kid" := "TODO"]> (with_alg_of jwk exported)] |}) /\
    with_alg_of jwk exported !! "alg" = jwk !! "alg" /\
    generated w2 = generated w0 /\
    (forall url signed,
       (url, signed) ∈ outbox w1 -> (url, signed) ∉ outbox w ->
       sig_alg (sr_signature_input signed) = jwk !! "alg").
Proof.
  intros Hwire Hkey Hpub Hexp w1.
  destruct (getPrivateKey_caches _ _ _ _ _ Hkey) as [Hcached Hpub0].
  rewrite Hpub in Hpub0.
  assert (Hw1 : (w1 = w0 \/ exists m, w1 = set_outbox (fun o => (o ++ [m])%list) w0 /\
                                       sig_alg (sr_signature_input m.2) = jwk !! "alg") /\
                (w1 = w0 -> outbox w1 = outbox w)).
  { unfold w1. rewrite run_fetch, Hwire, Hkey.
    pose proof (getPrivateKey_frame (keyGen S) w) as Hframe. rewrite Hkey in Hframe.
    simpl in Hframe. destruct Hframe as (_ & Hout & _).
    repeat case_decide; cbn [fst snd]; try (split; [left; reflexivity | intros _; exact Hout]).
    destruct (subtle_sign _ _) as [signature|e]; cbn zeta; cbn [fst snd];
      [|split; [left; reflexivity | intros _; exact Hout]].
    split; [right; eexists; split; [reflexivity|reflexivity]|].
    intros Heq. rewrite Heq. exact Hout. }
  destruct Hw1 as [Hshape Hsame].
  assert (Hgen : privateJwk (gen_state w1 (gen_id (keyGen S))) = Some jwk /\
                 publicJwk (gen_state w1 (gen_id (keyGen S))) = None /\
                 generated w1 = generated w0).
  { destruct Hshape as [-> | (m & -> & _)]; auto. }
  destruct Hgen as (Hpriv1 & Hpub1 & Hcount).
  unfold getJWKSConfig. rewrite run_bind, run_await, run_getPublicKey, Hpub1.
  rewrite run_getPrivateKey, Hpriv1, Hexp. cbn [run app].
  eexists. split; [reflexivity|].
  split; [rewrite res_of_res_send; reflexivity|].
  split.
  { unfold with_alg_of. destruct (jwk !! "alg");
      [apply lookup_insert_eq | apply lookup_delete_eq]. }
  split; [exact Hcount|].
  intros url signed Hin Hnot.
  destruct Hshape as [Heq | (m & Heq & Halg)].
  - rewrite (Hsame Heq) in Hin. contradiction.
  - rewrite Heq in Hin. cbn [outbox set_outbox] in Hin.
    pose proof (getPrivateKey_frame (keyGen S) w) as Hframe. rewrite Hkey in Hframe.
    simpl in Hframe. destruct Hframe as (_ & Hout & _). rewrite Hout in Hin.
    apply elem_of_app in Hin as [Hold | Hnew]; [contradiction|].
    apply list_elem_of_singleton in Hnew. rewrite <- Hnew in Halg. exact Halg.
Qed.


End Program.

(** ** The handlers on concrete requests *)

(** Closes a premise that is an equation or a disequation between closed
    terms, and leaves every other goal alone. *)
Ltac evaluate :=
  lazymatch goal with
  | |- _ = _ => vm_compute; reflexivity
  | |- _ <> _ => discriminate
  | |- _ => idtac
  end.



(** C6, witness: the AS cannot be reached. *)
Lemma getResource_introspection_failure_witness :
  let network := Demo.answer (Rejected (TypeError "fetch failed")) in
  let w1 := (run (SignedFetcher_fetch Demo.generateKeyPair Demo.subtle_sign network
                    (fetcher Demo.server) (JStr "http://localhost:4000/uma/introspect")
                    (Some (introspection_init "X"))) Demo.world_with_r1).1.2 in
  run (getResource Demo.generateKeyPair Demo.subtle_sign network
         Demo.server (Demo.get_r1 (Some "Bearer X")) 7) Demo.world_with_r1 =
    (Rejected (Error ("Could not verify access token: " +:+
                      error_toString (TypeError "fetch failed"))), w1, []) /\
  responses w1 = responses Demo.world_with_r1.
Proof.
  cbv zeta.
  apply (getResource_introspection_failure Demo.generateKeyPair Demo.subtle_sign
           (Demo.answer (Rejected (TypeError "fetch failed")))
           Demo.server (Demo.get_r1 (Some "Bearer X")) 7 Demo.world_with_r1 _
           "Bearer X" " X" Demo.config (JStr "http://localhost:4000/uma/introspect")
           (TypeError "fetch failed") []);
    try (vm_compute; reflexivity).
  left. vm_compute. reflexivity.
Defined.

(** C6, counterexample: the rejection for a failed introspection call is
    not of another kind than the rejection for an inactive token. An
    unreachable AS and an answer that is not JSON both give an error of
    class [Error], as an inactive token does; and a fetcher that fails with
    the message of the inner error gives the very same rejection. *)
Lemma introspection_failure_same_error_as_inactive :
  let outcome network :=
    (run (getResource Demo.generateKeyPair Demo.subtle_sign network
            Demo.server (Demo.get_r1 (Some "Bearer X")) 7) Demo.world_with_r1).1.1 in
  let inactive := Demo.answer (Demo.json_response 200 (JObj [("active", JBool false)])) in
  let unreachable := Demo.answer (Rejected (TypeError "fetch failed")) in
  let not_json := Demo.answer Demo.html_response in
  let failing :=
    Demo.answer (Rejected (Error "Could not verify access token with introspection response.")) in
  err_name <$> rejection (outcome inactive) = Some "Error" /\
  err_name <$> rejection (outcome unreachable) = Some "Error" /\
  err_name <$> rejection (outcome not_json) = Some "Error" /\
  outcome failing = outcome inactive.
Proof. cbv zeta. repeat split; vm_compute; reflexivity. Qed.

(** C9, witness: [Authorization: Basic xyz]. *)
Lemma getResource_header_without_Bearer_witness :
  exists e,
    run (getResource Demo.generateKeyPair Demo.subtle_sign
           (Demo.answer (Demo.json_response 200 (JObj [("ticket", JStr "T")])))
           Demo.server (Demo.get_r1 (Some "Basic xyz")) 7) Demo.world_with_r1 =
      (Rejected e, Demo.world_with_r1, []) /\
    forall cfg, authServerUmaConfig Demo.server = Fulfilled cfg ->
      e = TypeError "Cannot read properties of undefined (reading 'trim')".
Proof.
  apply (getResource_header_without_Bearer Demo.generateKeyPair Demo.subtle_sign
           (Demo.answer (Demo.json_response 200 (JObj [("ticket", JStr "T")])))
           Demo.server (Demo.get_r1 (Some "Basic xyz")) 7 Demo.world_with_r1 "Basic xyz").
  - reflexivity.
  - discriminate.
  - intros pre post H.
    assert (Hin : includes "Basic xyz" "Bearer" = true)
      by (apply includes_correct; exists pre, post; exact H).
    vm_compute in Hin. discriminate.
Defined.

(** C9, counterexample: an Authorization header that is present and empty
    does not contain [Bearer], yet the handler asks the AS for a ticket
    and answers 401. *)
Lemma getResource_empty_header_challenges :
  let req := Demo.get_r1 (Some "") in
  let outcome := run (getResource Demo.generateKeyPair Demo.subtle_sign
                        (Demo.answer (Demo.json_response 200 (JObj [("ticket", JStr "T")])))
                        Demo.server req 7) Demo.world_with_r1 in
  req_authorization req = Some "" /\
  includes "" "Bearer" = false /\
  outcome.1.1 = Fulfilled tt /\
  length (outbox outcome.1.2) = 1%nat /\
  statusCode (res_of outcome.1.2 7) = 401 /\
  sent (res_of outcome.1.2 7) = Some (Text "401 Unauthenticated").
Proof. cbv zeta. repeat split; vm_compute; reflexivity. Qed.

(** C2, witness: the AS issues the ticket [T]. *)
Lemma getResource_without_token_challenges_witness :
  exists (signed : SignedRequest) (w2 : World),
    run (getResource Demo.generateKeyPair Demo.subtle_sign
           (Demo.answer (Demo.json_response 200 (JObj [("ticket", JStr "T")])))
           Demo.server (Demo.get_r1 None) 7) Demo.world_with_r1 = (Fulfilled tt, w2, []) /\
    outbox w2 = [(JStr "http://localhost:4000/uma/ticket", signed)] /\
    Demo.json_response 200 (JObj [("ticket", JStr "T")]) =
      Fulfilled {| status := 200; json := Fulfilled (JObj [("ticket", JStr "T")]); text := "" |} /\
    sr_url signed = JStr "http://localhost:4000/uma/ticket" /\
    sr_method signed = "POST" /\
    sr_body signed =
      stringify (JArr [JObj [("resource_id", JStr "http://localhost:3565/r1");
                             ("resource_scopes", JArr [JStr "urn:example:css:modes:read"])]]) /\
    res_of w2 7 =
      {| statusCode := 401;
         res_headers :=
           [("WWW-Authenticate",
             "UMA realm=" +:+ dquote +:+ "solid" +:+ dquote +:+
             ",as_uri=" +:+ dquote +:+ "http://localhost:4000/uma" +:+ dquote +:+
             ",ticket=" +:+ dquote +:+ "T" +:+ dquote)];
         sent := Some (Text "401 Unauthenticated") |} /\
    resources w2 = resources Demo.world_with_r1.
Proof.
  apply (getResource_without_token_challenges Demo.generateKeyPair Demo.subtle_sign
           (Demo.answer (Demo.json_response 200 (JObj [("ticket", JStr "T")])))
           Demo.server (Demo.get_r1 None) 7 Demo.world_with_r1
           (run (SignedFetcher_fetch Demo.generateKeyPair Demo.subtle_sign
                   (Demo.answer (Demo.json_response 200 (JObj [("ticket", JStr "T")])))
                   (fetcher Demo.server) (JStr "http://localhost:4000/uma/ticket")
                   (Some (ticket_init "http://localhost:3565/r1"))) Demo.world_with_r1).1.2
           Demo.config (JStr "http://localhost:4000/uma/ticket")
           (JObj [("ticket", JStr "T")]) "T"
           {| status := 200; json := Fulfilled (JObj [("ticket", JStr "T")]); text := "" |}
           []);
    vm_compute; reflexivity.
Defined.

(** C3, witness: [hello] is posted to [/r1] of a fresh server and then
    read with a token that the AS reports as active. *)
Lemma getResource_active_token_releases_witness :
  let network := Demo.answer (Demo.json_response 200 (JObj [("active", JBool true)])) in
  let posted :=
    (run (postResource Demo.generateKeyPair Demo.subtle_sign network
            Demo.server (Demo.post_r1 (Some "hello")) 1) empty_world).1.2 in
  exists w2,
    run (getResource Demo.generateKeyPair Demo.subtle_sign network
           Demo.server (Demo.get_r1 (Some "Bearer X")) 7) posted = (Fulfilled tt, w2, []) /\
    sent (res_of w2 7) = Some (Text "hello").
Proof.
  cbv zeta.
  destruct (getResource_active_token_releases Demo.generateKeyPair Demo.subtle_sign
              (Demo.answer (Demo.json_response 200 (JObj [("active", JBool true)])))
              Demo.server (Demo.get_r1 (Some "Bearer X")) 7
              (run (postResource Demo.generateKeyPair Demo.subtle_sign
                      (Demo.answer (Demo.json_response 200 (JObj [("active", JBool true)])))
                      Demo.server (Demo.post_r1 (Some "hello")) 1) empty_world).1.2
              (run (SignedFetcher_fetch Demo.generateKeyPair Demo.subtle_sign
                      (Demo.answer (Demo.json_response 200 (JObj [("active", JBool true)])))
                      (fetcher Demo.server) (JStr "http://localhost:4000/uma/introspect")
                      (Some (introspection_init "X")))
                   (run (postResource Demo.generateKeyPair Demo.subtle_sign
                           (Demo.answer (Demo.json_response 200 (JObj [("active", JBool true)])))
                           Demo.server (Demo.post_r1 (Some "hello")) 1) empty_world).1.2).1.2
              "Bearer X" " X" Demo.config (JStr "http://localhost:4000/uma/introspect")
              (JObj [("active", JBool true)])
              {| status := 200; json := Fulfilled (JObj [("active", JBool true)]); text := "" |}
              [])
    as (w2 & Hrun & _ & _ & Hposted & _); evaluate.
  exists w2. split; [exact Hrun|].
  apply (Hposted (Demo.post_r1 (Some "hello")) 1%nat empty_world "hello");
    evaluate.
Defined.

(** C4, witness: [hello] is posted to [/r1] of a fresh server, then
    [other] is posted to it. *)
Lemma postResource_write_once_witness :
  let network := Demo.answer (Demo.json_response 201 (JObj [("_id", JStr "id")])) in
  let w1 := (run (postResource Demo.generateKeyPair Demo.subtle_sign network
                    Demo.server (Demo.post_r1 (Some "hello")) 1) empty_world).1.2 in
  resources w1 !! "http://localhost:3565/r1" = Some "hello" /\
  exists w2,
    run (postResource Demo.generateKeyPair Demo.subtle_sign network
           Demo.server (Demo.post_r1 (Some "other")) 2) w1 = (Fulfilled tt, w2, []) /\
    resources w2 = resources w1 /\
    res_of w2 2 =
      {| statusCode := 200;
         res_headers := [];
         sent := Some (Text "Resource already exists in Demo UMA Resource Server!") |}.
Proof.
  cbv zeta.
  destruct (postResource_write_once Demo.generateKeyPair Demo.subtle_sign
              (Demo.answer (Demo.json_response 201 (JObj [("_id", JStr "id")])))
              Demo.server (Demo.post_r1 (Some "hello")) (Demo.post_r1 (Some "other"))
              1 empty_world "hello")
    as (Hstored & Hlater); evaluate.
  split; [exact Hstored|].
  apply Hlater; evaluate.
Defined.

(** C10, witness: an empty body is posted to [/r1] of a fresh server, then
    [hello]. *)
Lemma postResource_falsy_body_witness :
  let network := Demo.answer (Demo.json_response 201 (JObj [("_id", JStr "id")])) in
  exists (w1 : World) (task : Async unit),
    run (postResource Demo.generateKeyPair Demo.subtle_sign network
           Demo.server (Demo.post_r1 (Some "")) 1) empty_world = (Fulfilled tt, w1, [task]) /\
    resources w1 = ∅ /\
    res_of w1 1 =
      {| statusCode := 204;
         res_headers := [];
         sent := Some (Text "Resource saved at http://localhost:3565/r1") |} /\
    resources (run (postResource Demo.generateKeyPair Demo.subtle_sign network
                      Demo.server (Demo.post_r1 (Some "hello")) 2) w1).1.2
      !! "http://localhost:3565/r1" = Some "hello".
Proof.
  cbv zeta.
  destruct (postResource_falsy_body Demo.generateKeyPair Demo.subtle_sign
              (Demo.answer (Demo.json_response 201 (JObj [("_id", JStr "id")])))
              Demo.server (Demo.post_r1 (Some "")) 1 empty_world)
    as (w1 & task & Hrun & _ & Hstore & _ & Hres & Hlater); evaluate.
  exists w1, task. split; [exact Hrun|]. split; [exact Hstore|]. split; [exact Hres|].
  apply (Hlater (Demo.post_r1 (Some "hello")) 2%nat "hello"); evaluate.
Defined.

(** C7, witness: the generator of a fresh server makes a key; a second
    generator object over the same store returns that key, and derives
    from it the public key: the key without its private member. One key
    has been generated. *)
Lemma getPrivateKey_cache_store_generate_witness :
  let G := keyGen Demo.server in
  let G' := {| gen_id := 1; alg := ES256; key := "jwks" |} in
  let made := run (getPrivateKey Demo.generateKeyPair G) empty_world in
  let again := run (getPrivateKey Demo.generateKeyPair G') made.1.2 in
  let published := run (getPublicKey Demo.generateKeyPair Demo.exportPublicJwk G') made.1.2 in
  made.1.1 = Fulfilled (Some {[ "alg" := "ES256"; "kty" := "EC"; "crv" := "P-256";
                                "d" := "private-0" ]}) /\
  again.1.1 = made.1.1 /\
  generated again.1.2 = 1%nat /\
  published.1.1 = Fulfilled {[ "alg" := "ES256"; "kty" := "EC"; "crv" := "P-256" ]} /\
  generated published.1.2 = 1%nat /\
  (run (getPublicKey Demo.generateKeyPair Demo.exportPublicJwk G) made.1.2).1.1 =
  published.1.1.
Proof.
  cbv zeta.
  destruct (proj2 (proj2 (getPrivateKey_cache_store_generate
                            Demo.generateKeyPair Demo.exportPublicJwk
                            (keyGen Demo.server) empty_world)) eq_refl eq_refl)
    as (k & w1 & -> & Hrun & Hcount & _ & _ & Hfresh).
  rewrite Hrun. cbn [fst snd].
  destruct (Hfresh {| gen_id := 1; alg := ES256; key := "jwks" |} w1 eq_refl eq_refl)
    as ((w2 & Hagain & Hsame & _) & (w3 & Hpublished & Hsame' & _) & Hpublic).
  { apply (f_equal (fun x => generators x.1.2 !! 1%nat)) in Hrun.
    vm_compute in Hrun. cbn [fst snd] in Hrun. symmetry. exact Hrun. }
  rewrite Hagain, Hpublished. cbn [fst snd].
  split; [vm_compute; reflexivity|]. split; [reflexivity|].
  split; [rewrite Hsame, Hcount; reflexivity|].
  split; [vm_compute; reflexivity|].
  split; [rewrite Hsame', Hcount; reflexivity|].
  apply Hpublic.
  apply (f_equal (fun x => publicJwk (gen_state x.1.2 0))) in Hrun.
  vm_compute in Hrun. cbn [fst snd] in Hrun. symmetry. exact Hrun.
Defined.

(** C8, witness: the fresh server signs a request to the introspection
    endpoint and publishes its key set. *)
Lemma signature_keyid_is_published_kid_witness :
  let network := Demo.answer (Demo.json_response 200 (JObj [("active", JBool true)])) in
  let published := run (getJWKSConfig Demo.generateKeyPair Demo.exportPublicJwk
                          Demo.server (Demo.get_r1 None) 7) empty_world in
  let signing := run (SignedFetcher_fetch Demo.generateKeyPair Demo.subtle_sign network
                        (fetcher Demo.server) (JStr "http://localhost:4000/uma/introspect")
                        (Some (introspection_init "X"))) empty_world in
  (exists (k : JWK) (emitted : list (JsVal * SignedRequest)),
     sent (res_of published.1.2 7) = Some (Json {| keys := [k] |}) /\
     k !! "kid" = Some "TODO" /\
     outbox signing.1.2 = (outbox empty_world ++ emitted)%list /\
     (length emitted <= 1)%nat /\
     Forall (fun m => keyid (sr_signature_input m.2) = k !! "kid") emitted) /\
  length (outbox signing.1.2) = 1%nat.
Proof.
  cbv zeta. split; [|vm_compute; reflexivity].
  apply (signature_keyid_is_published_kid Demo.generateKeyPair Demo.exportPublicJwk
           Demo.subtle_sign
           (Demo.answer (Demo.json_response 200 (JObj [("active", JBool true)])))
           Demo.server (Demo.get_r1 None) 7 empty_world _
           (run (getJWKSConfig Demo.generateKeyPair Demo.exportPublicJwk
                   Demo.server (Demo.get_r1 None) 7) empty_world).2).
  vm_compute. reflexivity.
Defined.

(** C5, witness: two first callers on the generator of a fresh server are
    given different keys. *)
Lemma getPrivateKey_concurrent_first_callers_witness :
  let G := keyGen Demo.server in
  let first := <["alg" := "ES256"]> (Demo.generateKeyPair ES256 0) in
  let second := <["alg" := "ES256"]> (Demo.generateKeyPair ES256 1) in
  (exists w',
     interleave [0; 1; 0; 1; 0; 1; 0; 1; 0; 1]%nat
       [getPrivateKey Demo.generateKeyPair G; getPrivateKey Demo.generateKeyPair G]
       empty_world =
       ([Resolve (Some first); Resolve (Some second)], w') /\
     generated w' = 2%nat /\
     storage w' !! "jwks" = Some {| keys := [second] |} /\
     privateJwk (gen_state w' 0) = Some second) /\
  first <> second.
Proof.
  cbv zeta. split.
  - apply (getPrivateKey_concurrent_first_callers Demo.generateKeyPair
             (keyGen Demo.server) empty_world); reflexivity.
  - intros Heq. apply (f_equal (fun m : JWK => m !! "d")) in Heq.
    vm_compute in Heq. discriminate.
Defined.

(** ** Scenarios *)

(** POST [hello] to [/r1] answers 204; GET [/r1] without a token answers
    401 with the ticket [T]; GET [/r1] with [Authorization: Bearer X],
    where the AS reports [X] as active, answers 200 with [hello]. *)
Example post_challenge_read :
  let ticket := Demo.answer (Demo.json_response 200 (JObj [("ticket", JStr "T")])) in
  let active := Demo.answer (Demo.json_response 200 (JObj [("active", JBool true)])) in
  let posted := (run (postResource Demo.generateKeyPair Demo.subtle_sign ticket
                        Demo.server (Demo.post_r1 (Some "hello")) 1) empty_world).1.2 in
  let challenged := (run (getResource Demo.generateKeyPair Demo.subtle_sign ticket
                            Demo.server (Demo.get_r1 None) 2) posted).1.2 in
  let read := (run (getResource Demo.generateKeyPair Demo.subtle_sign active
                      Demo.server (Demo.get_r1 (Some "Bearer X")) 3) challenged).1.2 in
  statusCode (res_of posted 1) = 204 /\
  res_of challenged 2 =
    {| statusCode := 401;
       res_headers :=
         [("WWW-Authenticate",
           "UMA realm=" +:+ dquote +:+ "solid" +:+ dquote +:+
           ",as_uri=" +:+ dquote +:+ "http://localhost:4000/uma" +:+ dquote +:+
           ",ticket=" +:+ dquote +:+ "T" +:+ dquote)];
       sent := Some (Text "401 Unauthenticated") |} /\
  res_of read 3 =
    {| statusCode := 200; res_headers := []; sent := Some (Text "hello") |} /\
  generated read = 1%nat.
Proof. cbv zeta. repeat split; vm_compute; reflexivity. Qed.

(** The registration that a first POST leaves behind: once the tasks left
    behind have run, one request has gone to the registration endpoint, a
    POST with the five scopes as its JSON body, whatever the AS answers. *)
Example post_registers_resource :
  let network := Demo.answer Demo.html_response in
  let posted := run (postResource Demo.generateKeyPair Demo.subtle_sign network
                       Demo.server (Demo.post_r1 (Some "hello")) 1) empty_world in
  let settled := drain 3 posted.2 posted.1.2 in
  outbox posted.1.2 = [] /\
  (fun m => (m.1, sr_method m.2, sr_body m.2)) <$> outbox settled =
    [(JStr "http://localhost:4000/uma/resources", "POST",
      stringify (JObj [("resource_scopes",
                        JArr [JStr "urn:example:css:modes:read";
                              JStr "urn:example:css:modes:append";
                              JStr "urn:example:css:modes:create";
                              JStr "urn:example:css:modes:delete";
                              JStr "urn:example:css:modes:write"])]))] /\
  resources settled = resources posted.1.2 /\
  res_of settled 1 = res_of posted.1.2 1.
Proof. cbv zeta. repeat split; vm_compute; reflexivity. Qed.

(** Callers that come one after the other share one key: the second call
    starts after the first has completed. *)
Example getPrivateKey_successive_callers :
  let G := keyGen Demo.server in
  let key := <["alg" := "ES256"]> (Demo.generateKeyPair ES256 0) in
  let outcome :=
    interleave [0; 0; 0; 0; 0; 1]%nat
      [getPrivateKey Demo.generateKeyPair G; getPrivateKey Demo.generateKeyPair G]
      empty_world in
  outcome.1 = [Resolve (Some key); Resolve (Some key)] /\
  generated outcome.2 = 1%nat.
Proof. cbv zeta. split; vm_compute; reflexivity. Qed.

(** ** Further concrete runs *)

(** Closes a premise between closed terms after evaluating both sides. *)
Ltac evaluate_premise :=
  lazymatch goal with
  | |- _ = _ => vm_compute; reflexivity
  | |- _ <> _ => let H := fresh in intros H; vm_compute in H; discriminate
  | |- _ \/ _ => first [left; reflexivity | right; reflexivity]
  | |- _ => idtac
  end.


(** X2, witness: a signer configured for EdDSA. *)
Lemma fetch_unsupported_algorithm_witness :
  let F := {| sf_baseUrl := "http://localhost:3565";
              sf_keyGen := {| gen_id := 0; alg := EdDSA; key := "jwks" |} |} in
  exists w1,
    run (SignedFetcher_fetch Demo.generateKeyPair Demo.subtle_sign
           (Demo.answer Demo.html_response) F (JStr "http://localhost:4000/uma/ticket") None)
        empty_world =
      (Rejected (Error "EdDSA signing is not supported"), w1, []) /\
    outbox w1 = [] /\
    generated w1 = 1%nat /\
    is_Some (storage w1 !! "jwks").
Proof.
  cbv zeta.
  apply (fetch_unsupported_algorithm Demo.generateKeyPair Demo.subtle_sign
           (Demo.answer Demo.html_response)
           {| sf_baseUrl := "http://localhost:3565";
              sf_keyGen := {| gen_id := 0; alg := EdDSA; key := "jwks" |} |}
           (JStr "http://localhost:4000/uma/ticket") None empty_world);
    evaluate_premise.
Defined.

(** X3, witness: a store with an empty key set. *)
Lemma fetch_without_usable_key_witness :
  exists w1,
    run (getPrivateKey Demo.generateKeyPair (keyGen Demo.server)) Demo.world_with_empty_key_set =
      (Fulfilled None, w1, []) /\
    run (SignedFetcher_fetch Demo.generateKeyPair Demo.subtle_sign
           (Demo.answer Demo.html_response) (fetcher Demo.server)
           (JStr "http://localhost:4000/uma/ticket") None) Demo.world_with_empty_key_set =
      (Rejected (TypeError "Cannot destructure property 'alg' of 'jwk' as it is undefined."),
       w1, []) /\
    outbox w1 = [] /\ generated w1 = 0%nat.
Proof.
  destruct (proj1 (fetch_without_usable_key Demo.generateKeyPair Demo.subtle_sign
                     (Demo.answer Demo.html_response) (fetcher Demo.server)
                     (JStr "http://localhost:4000/uma/ticket") None
                     Demo.world_with_empty_key_set Demo.world_with_empty_key_set [])
              {| keys := [] |})
    as (w1 & Hkey & Hrun & Hout & Hcount & _); evaluate_premise.
  exists w1. split; [exact Hkey|]. split; [exact Hrun|]. split; [exact Hout | exact Hcount].
Defined.

(** X5, witness: the store of a fresh server after [getPublicKey] holds
    the private key set under [jwks]. *)
Lemma getPublicKey_stores_private_key_only_witness :
  storage (run (getPublicKey Demo.generateKeyPair Demo.exportPublicJwk (keyGen Demo.server))
             empty_world).1.2 !! "jwks" =
    Some {| keys := [<["alg" := "ES256"]> (Demo.generateKeyPair ES256 0)] |} /\
  empty_world.(storage) !! "jwks" = None.
Proof.
  destruct (getPublicKey_stores_private_key_only Demo.generateKeyPair Demo.exportPublicJwk
              (keyGen Demo.server) empty_world "jwks"
              {| keys := [<["alg" := "ES256"]> (Demo.generateKeyPair ES256 0)] |})
    as [Hold | (_ & _ & Hnone)]; evaluate_premise.
  - vm_compute in Hold. discriminate.
  - split; [vm_compute; reflexivity | exact Hnone].
Defined.

(** X6, witness: the public key of a fresh server. *)
Lemma getPublicKey_derived_and_cached_witness :
  let first := run (getPublicKey Demo.generateKeyPair Demo.exportPublicJwk
                      (keyGen Demo.server)) empty_world in
  exists pub,
    first.1.1 = Fulfilled pub /\
    run (getPublicKey Demo.generateKeyPair Demo.exportPublicJwk (keyGen Demo.server))
        first.1.2 = (Fulfilled pub, first.1.2, []) /\
    pub !! "alg" = Some "ES256" /\ pub !! "d" = None /\ pub !! "kty" = Some "EC".
Proof.
  cbv zeta.
  set (pub := <["alg" := "ES256"]> (delete "alg" (delete "d"
                 (<["alg" := "ES256"]> (Demo.generateKeyPair ES256 0))))).
  destruct (getPublicKey_derived_and_cached Demo.generateKeyPair Demo.exportPublicJwk
              (keyGen Demo.server) empty_world
              (run (getPublicKey Demo.generateKeyPair Demo.exportPublicJwk
                      (keyGen Demo.server)) empty_world).1.2 pub [])
    as (_ & Hagain & _); evaluate_premise.
  exists pub. split; [vm_compute; reflexivity|]. split; [exact Hagain|].
  repeat split; vm_compute; reflexivity.
Defined.

(** X7, witness: the key set of a fresh server, asked for twice. *)
Lemma getJWKSConfig_publishes_cached_key_witness :
  let first := run (getJWKSConfig Demo.generateKeyPair Demo.exportPublicJwk
                      Demo.server (Demo.get_r1 None) 1) empty_world in
  exists k,
    sent (res_of first.1.2 1) = Some (Json {| keys := [k] |}) /\
    k !! "kid" = Some "TODO" /\
    (run (getPublicKey Demo.generateKeyPair Demo.exportPublicJwk (keyGen Demo.server))
         first.1.2).1.1 = Fulfilled k /\
    sent (res_of (run (getJWKSConfig Demo.generateKeyPair Demo.exportPublicJwk
                         Demo.server (Demo.get_r1 None) 2) first.1.2).1.2 2)
      = Some (Json {| keys := [k] |}).
Proof.
  cbv zeta.
  destruct (getJWKSConfig_publishes_cached_key Demo.generateKeyPair Demo.exportPublicJwk
              Demo.server (Demo.get_r1 None) 1 empty_world
              (run (getJWKSConfig Demo.generateKeyPair Demo.exportPublicJwk
                      Demo.server (Demo.get_r1 None) 1) empty_world).1.2 [])
    as (k & Hsent & Hkid & Hkey & Hlater); evaluate_premise.
  exists k. split; [exact Hsent|]. split; [exact Hkid|]. split; [rewrite Hkey; reflexivity|].
  destruct (Hlater (Demo.get_r1 None) 2%nat) as (w2 & Hrun & Hsent2 & _).
  rewrite Hrun. exact Hsent2.
Defined.

(** X8, witness: the key set in the store is empty. *)
Lemma getJWKSConfig_rejects_without_key_witness :
  let w1 := (run (getPublicKey Demo.generateKeyPair Demo.exportPublicJwk
                    (keyGen Demo.server)) Demo.world_with_empty_key_set).1.2 in
  run (getJWKSConfig Demo.generateKeyPair Demo.exportPublicJwk
         Demo.server (Demo.get_r1 None) 1) Demo.world_with_empty_key_set =
    (Rejected (TypeError "JWK must be an object"), w1, []) /\
  responses w1 = responses Demo.world_with_empty_key_set /\
  resources w1 = resources Demo.world_with_empty_key_set /\
  outbox w1 = outbox Demo.world_with_empty_key_set.
Proof.
  cbv zeta.
  apply (getJWKSConfig_rejects_without_key Demo.generateKeyPair Demo.exportPublicJwk
           Demo.server (Demo.get_r1 None) 1 Demo.world_with_empty_key_set).
  vm_compute. reflexivity.
Defined.

(** X9, witness: the AS answers the ticket request with a page of HTML. *)
Lemma getResource_ticket_failure_witness :
  let network := Demo.answer Demo.html_response in
  let w1 := (run (SignedFetcher_fetch Demo.generateKeyPair Demo.subtle_sign network
                    (fetcher Demo.server) (JStr "http://localhost:4000/uma/ticket")
                    (Some (ticket_init "http://localhost:3565/r1"))) Demo.world_with_r1).1.2 in
  run (getResource Demo.generateKeyPair Demo.subtle_sign network
         Demo.server (Demo.get_r1 None) 7) Demo.world_with_r1 =
    (Rejected (SyntaxError "Unexpected token '<'"), w1, []) /\
  responses w1 = responses Demo.world_with_r1 /\
  resources w1 = resources Demo.world_with_r1.
Proof.
  cbv zeta.
  apply (getResource_ticket_failure Demo.generateKeyPair Demo.subtle_sign
           (Demo.answer Demo.html_response) Demo.server (Demo.get_r1 None) 7
           Demo.world_with_r1 _ Demo.config (JStr "http://localhost:4000/uma/ticket")
           (SyntaxError "Unexpected token '<'") []);
    try (vm_compute; reflexivity).
  right. eexists. split; [vm_compute; reflexivity|]. left. reflexivity.
Defined.

(** X10, witness: the AS answers the ticket request with an empty JSON
    object. *)
Lemma getResource_challenge_without_ticket_witness :
  let network := Demo.answer (Demo.json_response 200 (JObj [])) in
  exists w2,
    run (getResource Demo.generateKeyPair Demo.subtle_sign network
           Demo.server (Demo.get_r1 None) 7) Demo.world_with_r1 = (Fulfilled tt, w2, []) /\
    res_of w2 7 =
      {| statusCode := 401;
         res_headers :=
           [("WWW-Authenticate",
             "UMA realm=" +:+ dquote +:+ "solid" +:+ dquote +:+
             ",as_uri=" +:+ dquote +:+ "http://localhost:4000/uma" +:+ dquote +:+
             ",ticket=" +:+ dquote +:+ "undefined" +:+ dquote)];
         sent := Some (Text "401 Unauthenticated") |}.
Proof.
  cbv zeta.
  apply (getResource_challenge_without_ticket Demo.generateKeyPair Demo.subtle_sign
           (Demo.answer (Demo.json_response 200 (JObj [])))
           Demo.server (Demo.get_r1 None) 7 Demo.world_with_r1
           (run (SignedFetcher_fetch Demo.generateKeyPair Demo.subtle_sign
                   (Demo.answer (Demo.json_response 200 (JObj [])))
                   (fetcher Demo.server) (JStr "http://localhost:4000/uma/ticket")
                   (Some (ticket_init "http://localhost:3565/r1"))) Demo.world_with_r1).1.2
           Demo.config (JStr "http://localhost:4000/uma/ticket") []
           {| status := 200; json := Fulfilled (JObj []); text := "" |} []);
    vm_compute; reflexivity.
Defined.

(** X11, witness: a server that could not fetch the metadata. *)
Lemma handlers_without_metadata_witness :
  let network := Demo.answer Demo.html_response in
  run (getResource Demo.generateKeyPair Demo.subtle_sign network
         Demo.server_without_metadata (Demo.get_r1 (Some "Bearer X")) 7) Demo.world_with_r1 =
    (Rejected (TypeError "fetch failed"), Demo.world_with_r1, []) /\
  exists w1 bg,
    run (postResource Demo.generateKeyPair Demo.subtle_sign network
           Demo.server_without_metadata (Demo.get_r1 (Some "Bearer X")) 7)
        Demo.world_with_r1 = (Fulfilled tt, w1, bg) /\
    is_Some (sent (res_of w1 7)) /\
    forall task, task ∈ bg -> run task w1 = (Rejected (TypeError "fetch failed"), w1, []).
Proof.
  cbv zeta.
  apply (handlers_without_metadata Demo.generateKeyPair Demo.subtle_sign
           (Demo.answer Demo.html_response) Demo.server_without_metadata
           (TypeError "fetch failed") (Demo.get_r1 (Some "Bearer X")) 7 Demo.world_with_r1).
  reflexivity.
Defined.

(** X13, witness: [Authorization: Bearer a&b]. *)
Lemma getResource_introspection_request_witness :
  exists emitted,
    outbox (run (getResource Demo.generateKeyPair Demo.subtle_sign
                   (Demo.answer Demo.html_response)
                   Demo.server (Demo.get_r1 (Some "Bearer a&b")) 7) empty_world).1.2
      = emitted /\
    length emitted = 1%nat /\
    Forall (fun m => sr_body m.2 = Some "token_type_hint=access_token&token=a&b") emitted.
Proof.
  destruct (getResource_introspection_request Demo.generateKeyPair Demo.subtle_sign
              (Demo.answer Demo.html_response)
              Demo.server (Demo.get_r1 (Some "Bearer a&b")) 7 empty_world
              " a&b" Demo.config (JStr "http://localhost:4000/uma/introspect"))
    as (emitted & Hout & _ & Hall); try reflexivity.
  { intros pre post H.
    assert (Hin : includes " a&b" "Bearer" = true)
      by (apply includes_correct; exists pre, post; exact H).
    vm_compute in Hin. discriminate. }
  exists emitted. split; [exact Hout|]. split.
  - apply (f_equal length) in Hout. vm_compute in Hout. symmetry. exact Hout.
  - eapply Forall_impl; [exact Hall|]. intros m (_ & _ & Hbody & _). exact Hbody.
Defined.

(** X15, witness: [hello] and [other] are posted to [/r1] of a fresh
    server; the first POST takes the first turn. *)
Lemma postResource_first_writer_wins_witness :
  let network := Demo.answer Demo.html_response in
  let outcome :=
    interleave [0; 1; 1; 0]%nat
      [postResource Demo.generateKeyPair Demo.subtle_sign network
         Demo.server (Demo.post_r1 (Some "hello")) 1;
       postResource Demo.generateKeyPair Demo.subtle_sign network
         Demo.server (Demo.post_r1 (Some "other")) 2] empty_world in
  resources outcome.2 = {[ "http://localhost:3565/r1" := "hello" ]} /\
  outcome.1 !! 0%nat = Some (Resolve tt).
Proof.
  cbv zeta.
  pose proof (postResource_first_writer_wins Demo.generateKeyPair Demo.subtle_sign
                (Demo.answer Demo.html_response) Demo.server
                (Demo.post_r1 (Some "hello")) (Demo.post_r1 (Some "other")) 1 2
                empty_world "hello" [1; 1; 0]%nat) as Hwins.
  cbv zeta in Hwins.
  destruct (interleave _ _ _) as [tasks w'].
  apply Hwins; evaluate_premise.
Defined.

(** X16, witness: the first signed call of a fresh server, whose generator
    is configured for ES256. *)
Lemma fetch_first_key_has_parameters_witness :
  exists params,
    algMap (Some "ES256") = Some params /\
    ap_namedCurve params = Some "P-256" /\
    exists signed w1,
      run (SignedFetcher_fetch Demo.generateKeyPair Demo.subtle_sign
             (Demo.answer Demo.html_response) (fetcher Demo.server)
             (JStr "http://localhost:4000/uma/ticket") None) empty_world =
        (Demo.html_response, w1, []) /\
      outbox w1 = [(JStr "http://localhost:4000/uma/ticket", signed)] /\
      sig_alg (sr_signature_input signed) = Some "ES256" /\
      generated w1 = 1%nat.
Proof.
  destruct (fetch_first_key_has_parameters Demo.generateKeyPair Demo.subtle_sign
              (Demo.answer Demo.html_response) (fetcher Demo.server)
              (JStr "http://localhost:4000/uma/ticket") None empty_world)
    as (params & Hparams & Hsigned); evaluate_premise.
  exists params. split; [exact Hparams|].
  split; [vm_compute in Hparams; injection Hparams as <-; reflexivity|].
  destruct (Hsigned "signature") as (signed & w1 & Hrun & Hout & Halg & _ & Hcount).
  { rewrite <- Hparams. vm_compute. reflexivity. }
  exists signed, w1. split; [exact Hrun|].
  split; [exact Hout|]. split; [exact Halg | exact Hcount].
Defined.

(** X17, witness: a fresh server signs a call and then publishes its key
    set. *)
Lemma published_key_is_signing_key_witness :
  let network := Demo.answer Demo.html_response in
  let signed_call :=
    run (SignedFetcher_fetch Demo.generateKeyPair Demo.subtle_sign network
           (fetcher Demo.server) (JStr "http://localhost:4000/uma/ticket") None)
        empty_world in
  let private := <["alg" := "ES256"]> (Demo.generateKeyPair ES256 0) in
  exists w2,
    run (getJWKSConfig Demo.generateKeyPair Demo.exportPublicJwk
           Demo.server (Demo.get_r1 None) 1) signed_call.1.2 = (Fulfilled tt, w2, []) /\
    sent (res_of w2 1) =
      Some (Json {| keys := [<["kid" := "TODO"]>
                               (with_alg_of private (delete "alg" (delete "d" private)))] |}) /\
    generated w2 = 1%nat /\
    length (outbox signed_call.1.2) = 1%nat.
Proof.
  cbv zeta.
  destruct (published_key_is_signing_key Demo.generateKeyPair Demo.exportPublicJwk
              Demo.subtle_sign (Demo.answer Demo.html_response)
              Demo.server (JStr "http://localhost:4000/uma/ticket") None
              (Demo.get_r1 None) 1 empty_world
              (run (getPrivateKey Demo.generateKeyPair (keyGen Demo.server)) empty_world).1.2
              (<["alg" := "ES256"]> (Demo.generateKeyPair ES256 0))
              (delete "alg" (delete "d" (<["alg" := "ES256"]> (Demo.generateKeyPair ES256 0))))
              [])
    as (w2 & Hrun & Hsent & _ & Hcount & _); evaluate_premise.
  exists w2. split; [exact Hrun|]. split; [exact Hsent|].
  split; [rewrite Hcount; vm_compute; reflexivity | vm_compute; reflexivity].
Defined.

(** X18, witness: the registration of [/r1] on a fresh server. *)
Lemma registerResourceToAS_requests_witness :
  let network := Demo.answer (Demo.json_response 201 (JObj [("_id", JStr "id")])) in
  exists w1 task,
    run (registerResourceToAS Demo.generateKeyPair Demo.subtle_sign network
           Demo.server "http://localhost:3565/r1") Demo.world_with_r1 =
      (Fulfilled tt, w1, [task]) /\
    length (outbox (drain 1 [task] w1)) = 1%nat /\
    resources (drain 1 [task] w1) = resources Demo.world_with_r1 /\
    responses (drain 1 [task] w1) = responses Demo.world_with_r1.
Proof.
  cbv zeta.
  destruct (registerResourceToAS_requests Demo.generateKeyPair Demo.subtle_sign
              (Demo.answer (Demo.json_response 201 (JObj [("_id", JStr "id")])))
              Demo.server "http://localhost:3565/r1" Demo.world_with_r1
              Demo.config (JStr "http://localhost:4000/uma/resources"))
    as (w1 & task & Hrun & Hout & Hres & Hresp); evaluate_premise.
  exists w1, task. split; [exact Hrun|].
  split; [rewrite Hout; vm_compute; reflexivity|]. split; [exact Hres | exact Hresp].
Defined.

(** X19, witness: a token that the AS reports as inactive. *)
Lemma getResource_sends_only_when_verified_witness :
  let outcome :=
    run (getResource Demo.generateKeyPair Demo.subtle_sign
           (Demo.answer (Demo.json_response 200 (JObj [("active", JBool false)])))
           Demo.server (Demo.get_r1 (Some "Bearer X")) 7) Demo.world_with_r1 in
  (exists e, outcome.1.1 = Rejected e) /\
  responses outcome.1.2 = responses Demo.world_with_r1 /\
  resources outcome.1.2 = resources Demo.world_with_r1.
Proof.
  cbv zeta.
  pose proof (getResource_sends_only_when_verified Demo.generateKeyPair Demo.subtle_sign
                (Demo.answer (Demo.json_response 200 (JObj [("active", JBool false)])))
                Demo.server (Demo.get_r1 (Some "Bearer X")) 7 Demo.world_with_r1 eq_refl)
    as Hends.
  destruct (run _ _) as [[r w'] bg] eqn:Hrun. cbn [fst snd].
  destruct Hends as [(e & -> & Hresp & Hres) | (-> & _)].
  - split; [eauto | split; assumption].
  - apply (f_equal (fun x => x.1.1)) in Hrun. vm_compute in Hrun. discriminate.
Defined.
